(** * banks_project.py: an extract-transform-load script over a table of banks

  A shallow embedding of [src/banks_project.py].  The script fetches a web
  page, finds one table in it, adds one converted column per currency, saves
  the table to a CSV file and to an SQLite table and runs three queries.

  Layout of the development:
  - [Binary64]   Python floats (IEEE 754 binary64) and the builtin [round];
  - [Py]         exceptions, scalars, the [*] and [round] of the script;
  - [Frame]      the part of [pandas.DataFrame] the script uses;
  - [Effects]    the events of a run and computations that return or raise;
  - [Transform]  [transform_market_cap];
  - [Soup]       the part of the BeautifulSoup tree the script uses;
  - [Pipeline]   the other functions of the script, over the collaborators
                 they call (transport, parsers, file and database writers);
  - [Vocabulary], [Outcomes], [Stages]  the terms the statements are made of;
  - [Samples], [Worlds]  tables, pages and collaborators to run them on;
  - the properties, each result with the number of the claim it settles. *)

From Stdlib Require Import ZArith Floats.SpecFloat.
From stdpp Require Import base list strings pretty.

(** ** Python floats *)

Module Binary64.
Local Open Scope Z_scope.

(** A Python [float] is a binary64 value: sign, mantissa and exponent of
    [SpecFloat], with 53 bits of precision. *)
Definition float : Type := spec_float.
Definition prec : Z := 53.
Definition emax : Z := 1024.

(** [x * y] on floats: the exact product rounded to the nearest binary64,
    ties to even. *)
Definition float_mul (x y : float) : float := SFmul prec emax x y.

(** [float(z)] for an [int]: the nearest binary64, ties to even; an infinity
    stands for a value beyond the largest float. *)
Definition float_of_Z (z : Z) : float := binary_normalize prec emax z 0 false.

(** The binary64 nearest to [num / den], with sign [s]: what reading a decimal
    literal, or the digits [round] has produced, gives. *)
Definition float_of_ratio (s : bool) (num den : positive) : float :=
  let '(mz, ez, lz) :=
    SFdiv_core_binary prec emax (Zpos num) 0 (Zpos den) 0 in
  binary_round_aux prec emax s mz ez lz.

(** [num / den] rounded to an integer, a tie going to the even neighbour. *)
Definition half_even_div (num den : Z) : Z :=
  let (q, r) := Z.div_eucl num den in
  match 2 * r ?= den with
  | Lt => q
  | Gt => q + 1
  | Eq => if Z.even q then q else q + 1
  end.

(** [NDIGITS_MAX] of CPython's [float.__round__]: beyond it a float rounds
    to itself. *)
Definition NDIGITS_MAX : nat := 323.

(** [round(x, ndigits)] on a float, for [ndigits >= 0], as CPython's
    [float.__round__] computes it.  Infinities and NaN round to themselves.
    A finite [x = m * 2^e] is written out exactly to [ndigits] decimals (a
    tie at the last kept digit goes to the even digit), and that decimal is
    read back as the nearest float.  The sign of [x] is kept, also on a zero
    result. *)
Definition float_round (x : float) (ndigits : nat) : float :=
  match x with
  | S754_finite s m e =>
      if (NDIGITS_MAX <? ndigits)%nat then x
      else
        let scale := 10 ^ Z.of_nat ndigits in
        let n :=
          match e with
          | Zneg k => half_even_div (Zpos m * scale) (2 ^ Zpos k)
          | _ => Zpos m * 2 ^ e * scale
          end in
        match n, scale with
        | Zpos p, Zpos d => float_of_ratio s p d
        | _, _ => S754_zero s
        end
  | _ => x
  end.

Definition is_infinity (x : float) : bool :=
  match x with
  | S754_infinity _ => true
  | _ => false
  end.

(** The float a decimal literal [n / d] denotes. *)
Definition literal (n d : positive) : float := float_of_ratio false n d.
End Binary64.
Export Binary64.

(** ** Python values and exceptions *)

Module Py.

(** The exception classes the script raises, catches or lets through. *)
Inductive exn_class : Type :=
| Exception
| AttributeError
| IndexError
| KeyError
| OverflowError
| TypeError
| ValueError
| RequestException
| ConnectionError
| Timeout
| HTTPError
| OSError
| DatabaseError.

(** An exception object: its class and [str(e)]. *)
Record exn : Type := mk_exn { exn_cls : exn_class; exn_str : string }.

(** [isinstance(e, requests.exceptions.RequestException)] *)
Definition is_RequestException (c : exn_class) : bool :=
  match c with
  | RequestException | ConnectionError | Timeout | HTTPError => true
  | _ => false
  end.

(** [isinstance(e, ValueError)] *)
Definition is_ValueError (c : exn_class) : bool :=
  match c with
  | ValueError => true
  | _ => false
  end.

(** The result of evaluating an expression: a value or a raised exception. *)
Inductive result (A : Type) : Type :=
| Ok (a : A)
| Raise (e : exn).
Arguments Ok {A} a.
Arguments Raise {A} e.

Definition raise {A : Type} (c : exn_class) (msg : string) : result A :=
  Raise (mk_exn c msg).

Definition rbind {A B : Type} (r : result A) (k : A -> result B) : result B :=
  match r with
  | Ok a => k a
  | Raise e => Raise e
  end.

(** A list comprehension [[f(x) for x in l]]: elements are evaluated from
    left to right and the first exception ends the evaluation. *)
Fixpoint comprehension {A B : Type} (f : A -> result B) (l : list A)
  : result (list B) :=
  match l with
  | [] => Ok []
  | x :: l' =>
      rbind (f x) (fun y =>
      rbind (comprehension f l') (fun ys => Ok (y :: ys)))
  end.

(** A cell of a table: a Python [str], [int] or [float]. *)
Inductive scalar : Type :=
| SStr (s : string)
| SInt (z : Z)
| SFloat (f : float).

(** [float(z)], as the arithmetic on mixed operands performs it. *)
Definition float_of_int (z : Z) : result float :=
  let f := float_of_Z z in
  if is_infinity f then raise OverflowError "int too large to convert to float"
  else Ok f.

(** [s * n] on a string: [n] copies of [s], none when [n <= 0]. *)
Definition str_repeat (s : string) (n : Z) : string :=
  Nat.iter (Z.to_nat n) (String.append s) EmptyString.

(** [x * y] *)
Definition py_mul (x y : scalar) : result scalar :=
  match x, y with
  | SInt a, SInt b => Ok (SInt (a * b))
  | SInt a, SFloat g => rbind (float_of_int a) (fun f => Ok (SFloat (float_mul f g)))
  | SFloat f, SInt b => rbind (float_of_int b) (fun g => Ok (SFloat (float_mul f g)))
  | SFloat f, SFloat g => Ok (SFloat (float_mul f g))
  | SStr s, SInt n | SInt n, SStr s => Ok (SStr (str_repeat s n))
  | SStr _, SFloat _ | SFloat _, SStr _ =>
      raise TypeError "can't multiply sequence by non-int of type 'float'"
  | SStr _, SStr _ =>
      raise TypeError "can't multiply sequence by non-int of type 'str'"
  end.

(** [round(x, ndigits)] with [ndigits >= 0]: an [int] is returned as it is,
    a [float] is rounded, a [str] has no [__round__]. *)
Definition py_round (x : scalar) (ndigits : nat) : result scalar :=
  match x with
  | SInt z => Ok (SInt z)
  | SFloat f => Ok (SFloat (float_round f ndigits))
  | SStr _ => raise TypeError "type str doesn't define __round__ method"
  end.

End Py.
Export Py.

(** ** Data frames *)

Module Frame.

(** A [DataFrame] with a default index: the number of rows and the columns
    in their order, each a label and its cells from the first row to the
    last. *)
Record DataFrame : Type := mk_df {
  nrows : nat;
  columns : list (string * list scalar)
}.

Definition labels (df : DataFrame) : list string := (columns df).*1.

(** The frames the script works on: the labels are unique (the tabular
    parser renames a repeated header) and every column has one cell per
    row.  [getitem] and [setitem] below are those of such frames. *)
Definition wf (df : DataFrame) : Prop :=
  NoDup (labels df) /\ Forall (fun c => length c.2 = nrows df) (columns df).

Definition has_label (key : string) (cols : list (string * list scalar)) : bool :=
  existsb (String.eqb key) cols.*1.

Fixpoint lookup_column (key : string) (cols : list (string * list scalar))
  : option (list scalar) :=
  match cols with
  | [] => None
  | (k, c) :: cols' => if String.eqb key k then Some c else lookup_column key cols'
  end.

(** [KeyError(key)]: its [str] is the [repr] of the key, which for a label
    without quotes or backslashes is the label between single quotes. *)
Definition key_error (key : string) : exn :=
  mk_exn KeyError ("'" +:+ key +:+ "'").

(** [df[key]]: the column labelled [key], [KeyError] when there is none. *)
Definition getitem (df : DataFrame) (key : string) : result (list scalar) :=
  match lookup_column key (columns df) with
  | Some c => Ok c
  | None => Raise (key_error key)
  end.

(** The columns after [df[key] = values]: a column labelled [key] takes the
    new cells where it stands, a new label is added after the last column. *)
Definition assign_column (key : string) (values : list scalar)
    (cols : list (string * list scalar)) : list (string * list scalar) :=
  if has_label key cols
  then map (fun kc => if String.eqb key kc.1 then (kc.1, values) else kc) cols
  else cols ++ [(key, values)].

(** [df[key] = values] for a list: the list must have one value per row. *)
Definition setitem (df : DataFrame) (key : string) (values : list scalar)
  : result DataFrame :=
  if Nat.eqb (length values) (nrows df)
  then Ok (mk_df (nrows df) (assign_column key values (columns df)))
  else raise ValueError "Length of values does not match length of index".


End Frame.
Export Frame.

(** ** State and effects *)

Module Effects.

Inductive level : Type := INFO | ERROR.

(** What a run does to the outside: log records, the read of the rates
    file, the request, the two writes, the connection, the queries and the
    printed results.  An event is recorded when the call is made, whatever
    its outcome. *)
Inductive event : Type :=
| EvLog (lvl : level) (msg : string)
| EvReadCsv (path : string)
| EvRequest (url : string)
| EvToCsv (path : string) (df : DataFrame)
| EvConnect (database : string)
| EvToSql (table_name : string) (df : DataFrame)
| EvCommit
| EvRollback
| EvExecute (query : string)
| EvPrint (rows : list (list scalar)).

(** A computation over a state [S] that returns or raises; what it did to
    the state before raising stays done. *)
Definition M (S A : Type) : Type := S -> result A * S.

Definition ret {S A : Type} (a : A) : M S A := fun s => (Ok a, s).

Definition bind {S A B : Type} (m : M S A) (k : A -> M S B) : M S B :=
  fun s =>
    match m s with
    | (Ok a, s') => k a s'
    | (Raise e, s') => (Raise e, s')
    end.

Definition lift {S A : Type} (r : result A) : M S A := fun s => (r, s).

Definition throw {S A : Type} (c : exn_class) (msg : string) : M S A :=
  lift (raise c msg).

(** [try: body except <class> as e: handler(e)] *)
Definition try_except {S A : Type} (body : M S A)
    (catches : exn_class -> bool) (handler : exn -> M S A) : M S A :=
  fun s =>
    match body s with
    | (Ok a, s') => (Ok a, s')
    | (Raise e, s') =>
        if catches (exn_cls e) then handler e s' else (Raise e, s')
    end.

(** [for x in l: body(x)] *)
Fixpoint for_ {S A : Type} (l : list A) (body : A -> M S unit) : M S unit :=
  match l with
  | [] => ret tt
  | x :: l' => bind (body x) (fun _ => for_ l' body)
  end.

(** The state of the functions that are handed the frame [df]: the frame
    object, which they may update in place, and the events so far. *)
Record store : Type := mk_store { obj : DataFrame; trace : list event }.

(** The functions that are not handed a frame run over the events alone.
    Both kinds of state record events. *)
Class Traced (S : Type) : Type := add_event : event -> S -> S.

#[export] Instance traced_events : Traced (list event) :=
  fun e t => t ++ [e].

#[export] Instance traced_store : Traced store :=
  fun e s => mk_store (obj s) (trace s ++ [e]).

Definition emit {S : Type} `{Traced S} (e : event) : M S unit :=
  fun s => (Ok tt, add_event e s).

(** [logging.info(msg)] and [logging.error(msg)] *)
Definition logging_info {S : Type} `{Traced S} (msg : string) : M S unit :=
  emit (EvLog INFO msg).

Definition logging_error {S : Type} `{Traced S} (msg : string) : M S unit :=
  emit (EvLog ERROR msg).

(** [df[key]] on the frame object *)
Definition df_getitem (key : string) : M store (list scalar) :=
  fun s => (getitem (obj s) key, s).

(** [df[key] = values] on the frame object: the object changes only when
    the assignment goes through. *)
Definition df_setitem (key : string) (values : list scalar) : M store unit :=
  fun s =>
    match setitem (obj s) key values with
    | Ok df' => (Ok tt, mk_store df' (trace s))
    | Raise e => (Raise e, s)
    end.

(** The frame object as it is now. *)
Definition df_read : M store DataFrame := fun s => (Ok (obj s), s).

(** A block of the script in which [df] names the frame [df0]. *)
Definition with_df {A : Type} (df0 : DataFrame) (body : M store A)
  : M (list event) A :=
  fun t =>
    let (r, s) := body (mk_store df0 t) in
    (r, trace s).

End Effects.
Export Effects.

Declare Scope py_scope.
Delimit Scope py_scope with py.
Notation "'let*' x ':=' m 'in' k" := (bind m (fun x => k))
  (at level 10, x name, m at level 100, k at level 200) : py_scope.
Notation "m '>>' k" := (bind m (fun _ => k))
  (at level 90, right associativity) : py_scope.
Open Scope py_scope.

(** ** The currency transform *)

Module Transform.

Definition source_column : string := "Market cap (US$ billion)".

(** [f'MC_{currency}_Billion'] *)
Definition mc_label (currency : string) : string :=
  "MC_" +:+ currency +:+ "_Billion".

(** [round(x * rate, 2)] *)
Definition converted (rate : float) (x : scalar) : result scalar :=
  rbind (py_mul x (SFloat rate)) (fun p => py_round p 2).

(** Lines 85 to 88.  [exchange_rates.items()] is the list of the dict's
    pairs in insertion order; [df] is the frame object of the store, and the
    function returns that same object. *)
Definition transform_market_cap (exchange_rates : list (string * float))
  : M store unit :=
  for_ exchange_rates (fun item =>
    let currency := item.1 in
    let rate := item.2 in
    let* col := df_getitem source_column in
    let* values := lift (comprehension (converted rate) col) in
    df_setitem (mc_label currency) values) >>
  logging_info "Data transformation complete. Initiating Loading process.".

End Transform.
Export Transform.


(** ** The parsed document *)

Module Soup.

(** A node of the tree BeautifulSoup builds: an element with its name and
    children, or a piece of text. *)
#[local] Unset Elimination Schemes.
Inductive node : Type :=
| Tag (name : string) (contents : list node)
| NavigableString (text : string).
#[local] Set Elimination Schemes.

(** [tag.descendants]: the nodes below [n], in document order. *)
Fixpoint descendants (n : node) : list node :=
  match n with
  | Tag _ contents => flat_map (fun c => c :: descendants c) contents
  | NavigableString _ => []
  end.

(** [soup.descendants] for the document whose top-level nodes are [soup] *)
Definition elements (soup : list node) : list node :=
  flat_map (fun c => c :: descendants c) soup.

(** [tag.string]: the text of a tag whose only child is a text, or a tag
    that has one itself; no string when there are no or several children. *)
Fixpoint string_of (n : node) : option string :=
  match n with
  | NavigableString s => Some s
  | Tag _ [c] => string_of c
  | Tag _ _ => None
  end.

(** [tag.get_text()]: all the text below a node, joined in document order. *)
Fixpoint get_text (n : node) : string :=
  match n with
  | NavigableString s => s
  | Tag _ contents => foldr (fun c acc => get_text c +:+ acc) EmptyString contents
  end.

(** An element found in the document: the node and [next_elements], the
    nodes that come after its opening in document order (its own
    descendants first). *)
Definition element : Type := node * list node.

Definition is_tag (name : string) (n : node) : bool :=
  match n with
  | Tag nm _ => String.eqb nm name
  | NavigableString _ => false
  end.

Definition string_is (s : string) (n : node) : bool :=
  match string_of n with
  | Some s' => String.eqb s' s
  | None => false
  end.

Fixpoint first_match (p : node -> bool) (els : list node) : option element :=
  match els with
  | [] => None
  | n :: rest => if p n then Some (n, rest) else first_match p rest
  end.

(** [soup.find(name, string=s)]: the first tag called [name] whose
    [.string] is [s], as the library documents it. *)
Definition find (soup : list node) (name : string) (s : string) : option element :=
  first_match (fun n => is_tag name n && string_is s n) (elements soup).

(** [el.find_next(name)]: the first tag called [name] after [el]. *)
Definition find_next (el : element) (name : string) : option element :=
  first_match (is_tag name) el.2.

End Soup.
Export Soup.

(** ** The script *)

Module Pipeline.

(** What [requests.get] hands back. *)
Record response : Type := mk_response {
  status_code : Z;
  reason : string;
  resp_url : string;
  text : string
}.

(** The ways a request fails without a response; requests raises each as a
    subclass of [RequestException]. *)
Inductive request_failure : Type :=
| ConnectionFailed
| TimedOut
| RequestFailed.

Definition failure_class (f : request_failure) : exn_class :=
  match f with
  | ConnectionFailed => ConnectionError
  | TimedOut => Timeout
  | RequestFailed => RequestException
  end.

Inductive transport_result : Type :=
| Sent (r : response)
| Failed (f : request_failure) (detail : string).

(** The libraries and the outside world the script calls.  Each field is
    the outcome of one call as a function of its arguments. *)
Record collaborators : Type := mk_collaborators {
  (** [pd.read_csv(path, index_col=0).to_dict()['Rate']]: the rates in the
      order of the file *)
  read_rates : string -> result (list (string * float));
  (** the transport under [requests.get(url)] *)
  transport : string -> transport_result;
  (** [BeautifulSoup(html, 'html.parser')]: the top-level nodes *)
  html_parser : string -> list node;
  (** [str(tag)] *)
  decode : node -> string;
  (** [pd.read_html(StringIO(markup))] *)
  read_html : string -> result (list DataFrame);
  (** [df.to_csv(path, index=False)] *)
  to_csv : DataFrame -> string -> result unit;
  (** [sqlite3.connect(database)] *)
  connect : string -> result unit;
  (** [df.to_sql(table_name, conn, if_exists='replace', index=False)] *)
  to_sql : DataFrame -> string -> result unit;
  (** [cursor.execute(query)] then [cursor.fetchall()] *)
  execute : string -> result (list (list scalar))
}.

(** The double quote character *)
Definition dquote : string :=
  String (Ascii.Ascii false true false false false true false false) EmptyString.

Definition url : string :=
  "https://web.archive.org/web/20230908091635/https://en.wikipedia.org/wiki/List_of_largest_banks".
Definition output_csv_path : string := "./Largest_banks_data.csv".
Definition database_name : string := "Banks.db".
Definition table_name : string := "Largest_banks".
Definition anchor : string := "By market capitalization".
Definition query_all : string := "SELECT * FROM Largest_banks LIMIT 5".
Definition query_avg : string := "SELECT AVG(MC_GBP_Billion) FROM Largest_banks".
Definition query_names : string :=
  "SELECT " +:+ dquote +:+ "Bank name" +:+ dquote +:+ " from Largest_banks LIMIT 5".

Section Script.
Context (W : collaborators).

(** [requests.get(url)]: one request *)
Definition requests_get (url : string) : M (list event) response :=
  emit (EvRequest url) >>
  match transport W url with
  | Sent r => ret r
  | Failed f detail => throw (failure_class f) detail
  end.

(** [response.raise_for_status()] *)
Definition raise_for_status (r : response) : M (list event) unit :=
  let code := status_code r in
  if ((400 <=? code) && (code <? 500))%Z then
    throw HTTPError
      (pretty code +:+ " Client Error: " +:+ reason r +:+ " for url: " +:+ resp_url r)
  else if ((500 <=? code) && (code <? 600))%Z then
    throw HTTPError
      (pretty code +:+ " Server Error: " +:+ reason r +:+ " for url: " +:+ resp_url r)
  else ret tt.

(** Lines 23 to 28 *)
Definition fetch_html (url : string) : M (list event) string :=
  try_except
    (let* response := requests_get url in
     raise_for_status response >>
     ret (text response))
    is_RequestException
    (fun e => throw Exception ("Error fetching HTML content: " +:+ exn_str e)).

(** [str(table)], where [table] is an element or [None] *)
Definition str (table : option element) : string :=
  match table with
  | Some el => decode W el.1
  | None => "None"
  end.

(** Lines 44 to 50.  [find] gives [None] when no span matches, and
    [None.find_next] raises [AttributeError] outside the [try]. *)
Definition extract_table (html : string) (table_attribs : string)
  : M (list event) DataFrame :=
  let soup := html_parser W html in
  match find soup "span" table_attribs with
  | None => throw AttributeError "'NoneType' object has no attribute 'find_next'"
  | Some span =>
      let table := find_next span "table" in
      try_except
        (let* dfs := lift (read_html W (str table)) in
         match dfs with
         | df :: _ => ret df
         | [] => throw IndexError "list index out of range"
         end)
        is_ValueError
        (fun e => throw Exception ("Error extracting table: " +:+ exn_str e))
  end.

(** Lines 63 to 70: [None] stands for the Python [None] the function
    returns after it has logged the error. *)
Definition extract (url : string) (table_attribs : string)
  : M (list event) (option DataFrame) :=
  try_except
    (let* html := fetch_html url in
     let* df := extract_table html table_attribs in
     logging_info "Data extraction complete. Initiating Transformation process." >>
     ret (Some df))
    (fun _ => true)
    (fun e =>
      logging_error ("Error during extraction: " +:+ exn_str e) >>
      ret None).

(** Lines 98 and 99; [df] is the frame object of the store. *)
Definition load_to_csv (output_path : string) : M store unit :=
  let* df := df_read in
  emit (EvToCsv output_path df) >>
  lift (to_csv W df output_path) >>
  logging_info "Data saved to CSV file.".

(** Lines 110 and 111; [conn] is the open connection. *)
Definition load_to_db (table_name : string) : M store unit :=
  let* df := df_read in
  emit (EvToSql table_name df) >>
  lift (to_sql W df table_name) >>
  logging_info "Data loaded to Database as a table, Executing queries.".

(** Lines 124 to 128 *)
Definition run_query (query : string) : M store (list (list scalar)) :=
  emit (EvExecute query) >>
  let* results := lift (execute W query) in
  logging_info "Query executed successfully." >>
  ret results.

(** [print(rows)] *)
Definition print (rows : list (list scalar)) : M store unit :=
  emit (EvPrint rows).

(** [with sqlite3.connect(database) as conn: body]: the connection commits
    when the body ends and rolls back when it raises. *)
Definition with_connection {A : Type} (database : string) (body : M store A)
  : M store A :=
  emit (EvConnect database) >>
  lift (connect W database) >>
  fun s =>
    match body s with
    | (Ok a, s') => (Ok a, add_event EvCommit s')
    | (Raise e, s') => (Raise e, add_event EvRollback s')
    end.

(** Lines 138 to 153; [logging.basicConfig] sets the format of the log
    records and is left out. *)
Definition main : M (list event) unit :=
  let* exchange_rates :=
    (emit (EvReadCsv "exchange_rate.csv") >>
     lift (read_rates W "exchange_rate.csv")) in
  logging_info "Preliminaries complete. Initiating ETL process." >>
  let* df := extract url anchor in
  match df with
  | Some df =>
      with_df df
        (transform_market_cap exchange_rates >>
         load_to_csv output_csv_path >>
         with_connection database_name
           (load_to_db table_name >>
            (let* r := run_query query_all in print r) >>
            (let* r := run_query query_avg in print r) >>
            (let* r := run_query query_names in print r)))
  | None => ret tt
  end >>
  logging_info "Process completed.".

(** Lines 155 and 156: the status the interpreter exits with when the file
    is run as a script, [0] when [main] returns and [1] when an exception
    leaves it. *)
Definition exit_status : Z :=
  match main [] with
  | (Ok _, _) => 0
  | (Raise _, _) => 1
  end.

End Script.

End Pipeline.
Export Pipeline.

(** ** Vocabulary of the statements *)

Module Vocabulary.

(** A numeric cell: a float, or an integer within the range of floats. *)
Definition numeric (x : scalar) : bool :=
  match x with
  | SStr _ => false
  | SInt z => negb (is_infinity (float_of_Z z))
  | SFloat _ => true
  end.

(** The exception [round(x * rate, 2)] raises on a cell that is not numeric;
    it does not depend on the rate. *)
Definition cell_error (x : scalar) : option exn :=
  match x with
  | SStr _ =>
      Some (mk_exn TypeError "can't multiply sequence by non-int of type 'float'")
  | SInt z =>
      if is_infinity (float_of_Z z)
      then Some (mk_exn OverflowError "int too large to convert to float")
      else None
  | SFloat _ => None
  end.

(** The exception of the first cell of a column that has one. *)
Fixpoint column_error (col : list scalar) : option exn :=
  match col with
  | [] => None
  | x :: col' =>
      match cell_error x with
      | Some e => Some e
      | None => column_error col'
      end
  end.

(** The value of [round(x * rate, 2)] where it has one. *)
Definition rounded_product (rate : float) (x : scalar) : scalar :=
  match converted rate x with
  | Ok v => v
  | Raise _ => x
  end.

(** The columns after the loop of [transform_market_cap] has run over
    [rates] with the source column [col]. *)
Definition convert_columns (col : list scalar) (rates : list (string * float))
    (cols : list (string * list scalar)) : list (string * list scalar) :=
  foldl (fun cs item =>
           assign_column (mc_label item.1) (map (rounded_product item.2) col) cs)
        cols rates.

(** The loop body of lines 85 and 86, as a computation on the store. *)
Definition loop_body (item : string * float) : M store unit :=
  let* col := df_getitem source_column in
  let* values := lift (comprehension (converted item.2) col) in
  df_setitem (mc_label item.1) values.

Definition transform_log : event :=
  EvLog INFO "Data transformation complete. Initiating Loading process.".

End Vocabulary.
Export Vocabulary.

(** ** Sample data *)

Module Samples.

(** The one-row table of banks: rank, name, market capitalisation 100.0. *)
Definition bank_frame (rank : scalar) : DataFrame :=
  mk_df 1 [("Rank", [rank]);
           ("Bank name", [SStr "ExampleBank"]);
           (source_column, [SFloat (float_of_Z 100)])].

(** The rates [{'EUR': 0.93, 'GBP': 0.8}] *)
Definition sample_rates : list (string * float) :=
  [("EUR", literal 93 100); ("GBP", literal 8 10)].

(** A table that has been through the transform before, at the rate 0.92:
    it has a column for the euro already. *)
Definition rerun_frame : DataFrame :=
  mk_df 2 [("MC_EUR_Billion", [SFloat (float_of_Z 92); SFloat (literal 644 100)]);
           (source_column, [SFloat (float_of_Z 100); SFloat (float_of_Z 7)])].


(** A table without the source column. *)
Definition rank_only_frame : DataFrame :=
  mk_df 1 [("Rank", [SInt 1])].


End Samples.
Export Samples.

(** ** Vocabulary of the statements about the script *)

Module Outcomes.

(** [response.ok]: [raise_for_status] raises on the codes 400 to 599 and on
    no other status. *)
Definition ok (r : response) : bool :=
  negb ((400 <=? status_code r)%Z && (status_code r <? 600)%Z).

(** [str(e)] of the [HTTPError] of such a response. *)
Definition status_detail (r : response) : string :=
  pretty (status_code r) +:+
  (if (status_code r <? 500)%Z then " Client Error: " else " Server Error: ") +:+
  reason r +:+ " for url: " +:+ resp_url r.

(** The exception [fetch_html] raises: the detail behind a fixed prefix. *)
Definition fetch_error (detail : string) : exn :=
  mk_exn Exception ("Error fetching HTML content: " +:+ detail).

(** The exception [extract_table] raises for a [ValueError] of the tabular
    parser. *)
Definition table_error (detail : string) : exn :=
  mk_exn Exception ("Error extracting table: " +:+ detail).

(** The exception of line 45 when no span matches. *)
Definition no_anchor_error : exn :=
  mk_exn AttributeError "'NoneType' object has no attribute 'find_next'".

(** What the script makes of the answer of the tabular parser: its first
    frame; a [ValueError] is wrapped, any other exception passes. *)
Definition first_frame (r : result (list DataFrame)) : result DataFrame :=
  match r with
  | Ok (df :: _) => Ok df
  | Ok [] => raise IndexError "list index out of range"
  | Raise e => if is_ValueError (exn_cls e) then Raise (table_error (exn_str e)) else Raise e
  end.

(** The outcome of [fetch_html] and of [extract_table]; neither depends on
    the events so far. *)
Definition fetch_result (W : collaborators) (u : string) : result string :=
  (fetch_html W u []).1.

Definition table_result (W : collaborators) (html a : string) : result DataFrame :=
  (extract_table W html a []).1.

(** The outcome of the [try] block of [extract]. *)
Definition extraction_result (W : collaborators) (u a : string) : result DataFrame :=
  rbind (fetch_result W u) (fun html => table_result W html a).



(** The log records and the events of a run of [main]. *)
Definition rates_path : string := "exchange_rate.csv".

Definition log_start : event :=
  EvLog INFO "Preliminaries complete. Initiating ETL process.".
Definition log_extracted : event :=
  EvLog INFO "Data extraction complete. Initiating Transformation process.".
Definition log_extraction_error (e : exn) : event :=
  EvLog ERROR ("Error during extraction: " +:+ exn_str e).
Definition log_saved : event := EvLog INFO "Data saved to CSV file.".
Definition log_loaded : event :=
  EvLog INFO "Data loaded to Database as a table, Executing queries.".
Definition log_query : event := EvLog INFO "Query executed successfully.".
Definition log_completed : event := EvLog INFO "Process completed.".

(** The events up to the end of a successful extraction, and up to the end
    of a failed one. *)
Definition extracted_trace : list event :=
  [EvReadCsv rates_path; log_start; EvRequest url; log_extracted].

Definition failed_extraction_trace (e : exn) : list event :=
  [EvReadCsv rates_path; log_start; EvRequest url; log_extraction_error e;
   log_completed].

(** The events of the two writes and the three queries on the frame [df],
    when all of them succeed. *)
Definition query_events (q : string) (rows : list (list scalar)) : list event :=
  [EvExecute q; log_query; EvPrint rows].

Definition loading_trace (df : DataFrame) (r1 r2 r3 : list (list scalar))
  : list event :=
  [EvToCsv output_csv_path df; log_saved;
   EvConnect database_name; EvToSql table_name df; log_loaded] ++
  query_events query_all r1 ++ query_events query_avg r2 ++
  query_events query_names r3 ++ [EvCommit].

(** A log record of level ERROR. *)
Definition is_error_log (ev : event) : bool :=
  match ev with
  | EvLog ERROR _ => true
  | _ => false
  end.

(** A write, a connection or a query has been attempted. *)
Definition is_load_event (ev : event) : bool :=
  match ev with
  | EvToCsv _ _ | EvConnect _ | EvToSql _ _ | EvExecute _ | EvPrint _
  | EvCommit | EvRollback => true
  | _ => false
  end.

End Outcomes.
Export Outcomes.

(** ** The stages of [main] after the extraction *)

Module Stages.

(** The three queries with their prints. *)
Definition queries (W : collaborators) : M store unit :=
  (let* r := run_query W query_all in print r) >>
  (let* r := run_query W query_avg in print r) >>
  (let* r := run_query W query_names in print r).

(** Lines 145 to 151: the two writes and the queries. *)
Definition loading (W : collaborators) : M store unit :=
  load_to_csv W output_csv_path >>
  with_connection W database_name (load_to_db W table_name >> queries W).

(** The store of a run that raised after the events [evs]. *)
Definition raised (e : exn) (s : store) (evs : list event) : result unit * store :=
  (Raise e, mk_store (obj s) (trace s ++ evs)).

(** The outcome of the three queries. *)
Definition query_results (W : collaborators)
  : result (list (list scalar) * list (list scalar) * list (list scalar)) :=
  rbind (execute W query_all) (fun r1 =>
  rbind (execute W query_avg) (fun r2 =>
  rbind (execute W query_names) (fun r3 => Ok (r1, r2, r3)))).

(** Everything after the extraction goes through: the transform leaves the
    store [s1], the writes and the connection succeed and the queries
    return [r1], [r2] and [r3]. *)
Definition completes (W : collaborators) (rates : list (string * float))
    (df : DataFrame) (s1 : store) (r1 r2 r3 : list (list scalar)) : Prop :=
  transform_market_cap rates (mk_store df extracted_trace) = (Ok tt, s1) /\
  to_csv W (obj s1) output_csv_path = Ok tt /\
  connect W database_name = Ok tt /\
  to_sql W (obj s1) table_name = Ok tt /\
  query_results W = Ok (r1, r2, r3).

(** A stage after the extraction raises [e]: the transform, the file write,
    the connection, the store write or a query. *)
Definition stage_fails (W : collaborators) (rates : list (string * float))
    (df : DataFrame) (e : exn) : Prop :=
  (exists s, transform_market_cap rates (mk_store df extracted_trace) = (Raise e, s)) \/
  (exists s1, transform_market_cap rates (mk_store df extracted_trace) = (Ok tt, s1) /\
     (to_csv W (obj s1) output_csv_path = Raise e \/
      to_csv W (obj s1) output_csv_path = Ok tt /\
      (connect W database_name = Raise e \/
       connect W database_name = Ok tt /\
       (to_sql W (obj s1) table_name = Raise e \/
        to_sql W (obj s1) table_name = Ok tt /\ query_results W = Raise e)))).

End Stages.
Export Stages.

(** ** Sample documents and collaborators *)

Module Worlds.

Definition cell (kind text : string) : node := Tag kind [NavigableString text].

(** [<table>] with the header row and the one data row of the example *)
Definition bank_table : node :=
  Tag "table"
    [Tag "tr" [cell "th" "Rank"; cell "th" "Bank name";
               cell "th" "Market cap (US$ billion)"];
     Tag "tr" [cell "td" "1"; cell "td" "ExampleBank"; cell "td" "100.0"]].

(** A page whose heading holds the anchor in a span, as the page of the
    script does. *)
Definition bank_span : node := Tag "span" [NavigableString anchor].
Definition bank_heading : node := Tag "h2" [bank_span].
Definition bank_body : node := Tag "body" [bank_heading; bank_table].
Definition bank_html : node := Tag "html" [bank_body].
Definition bank_page : list node := [bank_html].



(** A page whose anchor is not in a span. *)
Definition heading_page : list node :=
  [Tag "h2" [NavigableString anchor]; bank_table].

(** Collaborators that answer the same whatever they are asked. *)
Definition fixed_world (page : list node) (net : transport_result)
    (tables : result (list DataFrame)) (csv db sql : result unit)
    (rows : result (list (list scalar))) : collaborators :=
  {| read_rates := fun _ => Ok sample_rates;
     transport := fun _ => net;
     html_parser := fun _ => page;
     decode := get_text;
     read_html := fun _ => tables;
     to_csv := fun _ _ => csv;
     connect := fun _ => db;
     to_sql := fun _ _ => sql;
     execute := fun _ => rows |}.

Definition page_response : transport_result :=
  Sent (mk_response 200 "OK" url "<html>...</html>").

(** Everything works. *)
Definition sample_world : collaborators :=
  fixed_world bank_page page_response (Ok [bank_frame (SInt 1)])
    (Ok tt) (Ok tt) (Ok tt) (Ok [[SFloat (float_of_Z 80)]]).

(** The network is down. *)
Definition offline_world : collaborators :=
  fixed_world bank_page (Failed ConnectionFailed "Max retries exceeded")
    (Ok [bank_frame (SInt 1)]) (Ok tt) (Ok tt) (Ok tt) (Ok []).

(** The server answers 404. *)
Definition not_found_world : collaborators :=
  fixed_world bank_page (Sent (mk_response 404 "Not Found" url EmptyString))
    (Ok [bank_frame (SInt 1)]) (Ok tt) (Ok tt) (Ok tt) (Ok []).

(** The page has no span with the anchor. *)
Definition heading_world : collaborators :=
  fixed_world heading_page page_response (Ok [bank_frame (SInt 1)])
    (Ok tt) (Ok tt) (Ok tt) (Ok []).


(** The table has no source column, so the transform fails. *)
Definition wrong_table_world : collaborators :=
  fixed_world bank_page page_response (Ok [rank_only_frame])
    (Ok tt) (Ok tt) (Ok tt) (Ok []).

(** The file cannot be written. *)
Definition read_only_world : collaborators :=
  fixed_world bank_page page_response (Ok [bank_frame (SInt 1)])
    (raise OSError "Permission denied") (Ok tt) (Ok tt) (Ok []).

(** The table cannot be written to the database. *)
Definition locked_world : collaborators :=
  fixed_world bank_page page_response (Ok [bank_frame (SInt 1)])
    (Ok tt) (Ok tt) (raise DatabaseError "database is locked") (Ok []).

End Worlds.
Export Worlds.

(** ** Tactics *)

(** A decidable statement about given data, settled by evaluation. *)
Ltac decide_by_computation :=
  apply (bool_decide_unpack _); vm_compute; exact I.

(** Well-formedness of a given frame. *)
Ltac solve_wf :=
  split; [unfold labels; cbn; decide_by_computation | by repeat constructor].

(** The stages of the driver, unfolded to functions on the store. *)
Ltac unfold_stage :=
  unfold load_to_csv, load_to_db, run_query, print, with_connection, queries,
    df_read, emit, logging_info, lift, bind, ret, raised,
    add_event, traced_store; cbn [obj trace].

(** Membership in a list that is written out, taken apart into its cases. *)
Ltac in_list H :=
  repeat first
    [ apply elem_of_nil in H; destruct H
    | apply elem_of_cons in H as [H|H]; [try discriminate H|] ].

(** Membership in a list that is written out, shown by position. *)
Ltac is_in_list :=
  solve [repeat first [apply list_elem_of_here | apply list_elem_of_further]].

(** The runs of the driver, one case for each outcome of the collaborators;
    [shapes] is the lemma that lists them. *)
Ltac run_cases Hmain shapes :=
  apply shapes in Hmain;
  destruct (read_rates _ rates_path) as [rates|e0] eqn:Hrates;
    [|destruct Hmain as [-> ->]];
  [destruct (extraction_result _ url anchor) as [df0|e0] eqn:Hex;
    [|destruct Hmain as [-> ->]];
   [destruct Hmain as ([r1|e0] & s1 & Htr & Hmain); cbn zeta in Hmain;
    [destruct r1;
     destruct (to_csv _ (obj s1) output_csv_path) as [[]|e1] eqn:Hcsv;
       [|destruct Hmain as [-> ->]];
     [destruct (connect _ database_name) as [[]|e2] eqn:Hdb;
       [|destruct Hmain as [-> ->]];
      [destruct (to_sql _ (obj s1) table_name) as [[]|e3] eqn:Hsql;
        [|destruct Hmain as [-> ->]];
       [destruct (execute _ query_all) as [rows1|e4] eqn:Hq1;
         [|destruct Hmain as [-> ->]];
        [destruct (execute _ query_avg) as [rows2|e5] eqn:Hq2;
          [|destruct Hmain as [-> ->]];
         [destruct (execute _ query_names) as [rows3|e6] eqn:Hq3;
           destruct Hmain as [-> ->]|]|]|]|]|]
    |destruct Hmain as [-> ->]]|]|];
  unfold extracted_trace, failed_extraction_trace, query_events,
    log_extraction_error, log_start, log_extracted, log_saved, log_loaded,
    log_query, log_completed, transform_log in *;
  cbn [app] in *.

(** ** Further vocabulary and samples *)

Module Coverage.



(** The URLs requested in the course of the events [t], in order. *)
Fixpoint requests_of (t : list event) : list string :=
  match t with
  | [] => []
  | EvRequest u :: t' => u :: requests_of t'
  | _ :: t' => requests_of t'
  end.

(** A page with the span of the anchor and no table after it. *)
Definition heading_only_page : list node := [bank_heading].

Definition heading_only_world : collaborators :=
  fixed_world heading_only_page page_response (raise ValueError "No tables found")
    (Ok tt) (Ok tt) (Ok tt) (Ok []).

(** The tabular parser fails for want of a library. *)
Definition no_parser_world : collaborators :=
  fixed_world bank_page page_response (raise OSError "lxml not found")
    (Ok tt) (Ok tt) (Ok tt) (Ok []).

(** The file of the rates is missing. *)
Definition no_rates_world : collaborators :=
  {| read_rates := fun _ => raise OSError "No such file or directory: 'exchange_rate.csv'";
     transport := fun _ => page_response;
     html_parser := fun _ => bank_page;
     decode := get_text;
     read_html := fun _ => Ok [bank_frame (SInt 1)];
     to_csv := fun _ _ => Ok tt;
     connect := fun _ => Ok tt;
     to_sql := fun _ _ => Ok tt;
     execute := fun _ => Ok [] |}.

(** The second query fails. *)
Definition bad_query_world : collaborators :=
  {| read_rates := fun _ => Ok sample_rates;
     transport := fun _ => page_response;
     html_parser := fun _ => bank_page;
     decode := get_text;
     read_html := fun _ => Ok [bank_frame (SInt 1)];
     to_csv := fun _ _ => Ok tt;
     connect := fun _ => Ok tt;
     to_sql := fun _ _ => Ok tt;
     execute := fun q =>
       if String.eqb q query_avg
       then raise DatabaseError "no such column: MC_GBP_Billion"
       else Ok [[SStr "ExampleBank"]] |}.

(** A table with a missing market capitalisation in its second row. *)
Definition gap_frame : DataFrame :=
  mk_df 2 [("Bank name", [SStr "ExampleBank"; SStr "OtherBank"]);
           (source_column, [SFloat (float_of_Z 100); SFloat S754_nan])].


End Coverage.
Export Coverage.
(** * Properties *)

(** ** Labels *)

Lemma append_cons (a : Ascii.ascii) (s t : string) :
  String a s +:+ t = String a (s +:+ t).
Proof. reflexivity. Qed.

Lemma length_append (s t : string) :
  String.length (s +:+ t) = String.length s + String.length t.
Proof.
  induction s as [|a s IH]; [reflexivity|].
  rewrite append_cons. cbn [String.length]. by rewrite IH.
Qed.

Lemma append_cancel_r (s1 s2 t : string) : s1 +:+ t = s2 +:+ t -> s1 = s2.
Proof.
  revert s2. induction s1 as [|a s1 IH]; intros [|b s2] H.
  - reflexivity.
  - apply (f_equal String.length) in H.
    change (EmptyString +:+ t) with t in H.
    rewrite length_append in H. cbn [String.length] in H. lia.
  - apply (f_equal String.length) in H.
    change (EmptyString +:+ t) with t in H.
    rewrite length_append in H. cbn [String.length] in H. lia.
  - rewrite !append_cons in H. injection H as -> H. f_equal. by apply IH.
Qed.

(** Distinct currency codes give distinct labels. *)
Lemma mc_label_inj (c1 c2 : string) : mc_label c1 = mc_label c2 -> c1 = c2.
Proof.
  unfold mc_label. intros H.
  apply (String.app_inj "MC_") in H.
  by apply append_cancel_r in H.
Qed.

(** No label of a converted column is the label of the source column. *)
Lemma mc_label_not_source (c : string) : mc_label c <> source_column.
Proof. unfold mc_label, source_column. rewrite !append_cons. discriminate. Qed.

(** ** Columns *)

Lemma has_label_elem (key : string) (cols : list (string * list scalar)) :
  has_label key cols = true <-> key ∈ cols.*1.
Proof.
  unfold has_label. rewrite existsb_exists. split.
  - intros (k & Hin & Heq). apply String.eqb_eq in Heq as ->.
    by apply list_elem_of_In.
  - intros Hin. exists key. split; [by apply list_elem_of_In|].
    apply String.eqb_refl.
Qed.

Lemma has_label_false (key : string) (cols : list (string * list scalar)) :
  has_label key cols = false <-> key ∉ cols.*1.
Proof.
  rewrite <- has_label_elem. destruct (has_label key cols); naive_solver.
Qed.

Lemma lookup_column_None (key : string) (cols : list (string * list scalar)) :
  lookup_column key cols = None <-> key ∉ cols.*1.
Proof.
  induction cols as [|[k c] cols IH]; cbn.
  - split; [intros _; apply not_elem_of_nil|done].
  - destruct (String.eqb_spec key k) as [->|Hne].
    + split; [done|]. intros H. exfalso. apply H. left.
    + rewrite IH, not_elem_of_cons. tauto.
Qed.

Lemma lookup_column_Some_elem (key : string) (c : list scalar)
    (cols : list (string * list scalar)) :
  lookup_column key cols = Some c -> (key, c) ∈ cols.
Proof.
  induction cols as [|[k c'] cols IH]; cbn; [done|].
  destruct (String.eqb_spec key k) as [->|Hne].
  - intros [= ->]. left.
  - intros H. right. by apply IH.
Qed.

Lemma lookup_column_is_Some (key : string) (cols : list (string * list scalar)) :
  key ∈ cols.*1 -> is_Some (lookup_column key cols).
Proof.
  intros Hin. destruct (lookup_column key cols) eqn:E; [by eexists|].
  by apply lookup_column_None in E.
Qed.

(** The columns after an assignment, read back. *)
Lemma lookup_assign_eq (key : string) (v : list scalar)
    (cols : list (string * list scalar)) :
  lookup_column key (assign_column key v cols) = Some v.
Proof.
  unfold assign_column. destruct (has_label key cols) eqn:E.
  - apply has_label_elem in E.
    induction cols as [|[k c] cols IH]; cbn in *; [by apply elem_of_nil in E|].
    destruct (String.eqb_spec key k) as [->|Hne]; cbn.
    + by rewrite String.eqb_refl.
    + destruct (String.eqb_spec key k); [done|].
      apply IH. apply elem_of_cons in E as [?|?]; done.
  - apply has_label_false in E.
    induction cols as [|[k c] cols IH]; cbn in *.
    + by rewrite String.eqb_refl.
    + apply not_elem_of_cons in E as [Hne E].
      destruct (String.eqb_spec key k); [done|]. by apply IH.
Qed.

Lemma lookup_assign_ne (key key' : string) (v : list scalar)
    (cols : list (string * list scalar)) :
  key <> key' ->
  lookup_column key' (assign_column key v cols) = lookup_column key' cols.
Proof.
  intros Hne. unfold assign_column. destruct (has_label key cols).
  - induction cols as [|[k c] cols IH]; cbn; [done|].
    destruct (String.eqb_spec key k) as [->|Hk]; cbn.
    + destruct (String.eqb_spec key' k); [congruence|]. apply IH.
    + destruct (String.eqb_spec key' k); [done|]. apply IH.
  - induction cols as [|[k c] cols IH]; cbn.
    + destruct (String.eqb_spec key' key); [congruence|done].
    + destruct (String.eqb_spec key' k); [done|]. apply IH.
Qed.

Lemma labels_assign (key : string) (v : list scalar)
    (cols : list (string * list scalar)) :
  (assign_column key v cols).*1 =
  if has_label key cols then cols.*1 else cols.*1 ++ [key].
Proof.
  unfold assign_column. destruct (has_label key cols).
  - induction cols as [|[k c] cols IH]; cbn; [done|].
    rewrite IH. by destruct (String.eqb key k).
  - by rewrite fmap_app.
Qed.

(** An assignment leaves every column at its position; only the cells of
    the assigned label change. *)
Lemma assign_column_lookup (key : string) (v : list scalar)
    (cols : list (string * list scalar)) (i : nat) (k : string) (c : list scalar) :
  cols !! i = Some (k, c) ->
  assign_column key v cols !! i = Some (k, if String.eqb key k then v else c).
Proof.
  intros Hi. unfold assign_column. destruct (has_label key cols) eqn:E.
  - rewrite list_lookup_fmap, Hi. cbn. by destruct (String.eqb key k).
  - rewrite lookup_app_l by (by eapply lookup_lt_Some).
    rewrite Hi. assert (String.eqb key k = false) as ->; [|done].
    apply String.eqb_neq. intros ->.
    assert (k ∈ cols.*1) as Hin.
    { apply list_elem_of_fmap. exists (k, c). split; [done|].
      by eapply list_elem_of_lookup_2. }
    apply has_label_elem in Hin. congruence.
Qed.

(** ** The conversion of one column *)

Lemma converted_numeric (rate : float) (x : scalar) :
  cell_error x = None -> converted rate x = Ok (rounded_product rate x).
Proof.
  unfold rounded_product, converted. destruct x as [s|z|f]; cbn; [done| |done].
  unfold float_of_int. by destruct (is_infinity (float_of_Z z)).
Qed.

Lemma converted_error (rate : float) (x : scalar) (e : exn) :
  cell_error x = Some e -> converted rate x = Raise e.
Proof.
  unfold converted. destruct x as [s|z|f]; cbn; [by intros [= <-]| |done].
  unfold float_of_int. destruct (is_infinity (float_of_Z z)); [|done].
  by intros [= <-].
Qed.

(** On a float, and on an integer in the range of floats, the value is the
    binary product rounded to two decimals. *)
Lemma converted_float (rate f : float) :
  converted rate (SFloat f) = Ok (SFloat (float_round (float_mul f rate) 2)).
Proof. reflexivity. Qed.


Lemma cell_error_numeric (x : scalar) : cell_error x = None <-> numeric x = true.
Proof.
  destruct x as [s|z|f]; cbn; [done| |done].
  by destruct (is_infinity (float_of_Z z)).
Qed.

Lemma column_error_numeric (col : list scalar) :
  column_error col = None <-> Forall (fun x => numeric x = true) col.
Proof.
  induction col as [|x col IH]; cbn; [by split; [constructor|]|].
  rewrite Forall_cons, <- IH, <- cell_error_numeric.
  destruct (cell_error x); split; try done; by intros [? ?].
Qed.

(** The list comprehension of line 86 over a column. *)
Lemma comprehension_converted (rate : float) (col : list scalar) :
  comprehension (converted rate) col =
  match column_error col with
  | Some e => Raise e
  | None => Ok (map (rounded_product rate) col)
  end.
Proof.
  induction col as [|x col IH]; cbn; [done|].
  destruct (cell_error x) as [e|] eqn:E.
  - by rewrite (converted_error _ _ _ E).
  - rewrite (converted_numeric _ _ E). cbn. rewrite IH.
    by destruct (column_error col).
Qed.

(** ** The loop *)

Lemma convert_columns_cons (col : list scalar) (item : string * float)
    (rates : list (string * float)) (cols : list (string * list scalar)) :
  convert_columns col (item :: rates) cols =
  convert_columns col rates
    (assign_column (mc_label item.1) (map (rounded_product item.2) col) cols).
Proof. reflexivity. Qed.

Lemma lookup_source_assign (c : string) (v : list scalar)
    (cols : list (string * list scalar)) :
  lookup_column source_column (assign_column (mc_label c) v cols) =
  lookup_column source_column cols.
Proof. apply lookup_assign_ne, mc_label_not_source. Qed.

Lemma loop_numeric (rates : list (string * float)) (s : store) (col : list scalar) :
  lookup_column source_column (columns (obj s)) = Some col ->
  column_error col = None ->
  length col = nrows (obj s) ->
  for_ rates loop_body s =
  (Ok tt, mk_store (mk_df (nrows (obj s)) (convert_columns col rates (columns (obj s))))
                   (trace s)).
Proof.
  revert s. induction rates as [|item rates IH]; intros s Hcol Herr Hlen.
  - cbn. by destruct s as [[n cols] t].
  - cbn [for_]. unfold bind at 1.
    assert (loop_body item s =
            (Ok tt, mk_store (mk_df (nrows (obj s))
                      (assign_column (mc_label item.1)
                         (map (rounded_product item.2) col) (columns (obj s))))
                      (trace s))) as ->.
    { unfold loop_body, bind, df_getitem, getitem, lift, df_setitem, setitem.
      rewrite Hcol, comprehension_converted, Herr, length_map, Hlen.
      by rewrite Nat.eqb_refl. }
    rewrite IH; cbn; [done| |done|done].
    by rewrite lookup_source_assign.
Qed.

(** What [transform_market_cap] does on every store: nothing but the log
    record when there is no rate; otherwise the first pass of the loop
    decides whether it raises, and it raises before the frame has changed. *)
Lemma transform_market_cap_run (rates : list (string * float)) (s : store) :
  transform_market_cap rates s =
  match rates with
  | [] => (Ok tt, add_event transform_log s)
  | _ :: _ =>
      match lookup_column source_column (columns (obj s)) with
      | None => (Raise (key_error source_column), s)
      | Some col =>
          match column_error col with
          | Some e => (Raise e, s)
          | None =>
              if Nat.eqb (length col) (nrows (obj s))
              then (Ok tt,
                    mk_store (mk_df (nrows (obj s))
                                (convert_columns col rates (columns (obj s))))
                             (trace s ++ [transform_log]))
              else (Raise (mk_exn ValueError
                             "Length of values does not match length of index"), s)
          end
      end
  end.
Proof.
  unfold transform_market_cap. fold loop_body.
  destruct rates as [|item rates]; [done|].
  destruct (lookup_column source_column (columns (obj s))) as [col|] eqn:Hcol.
  - destruct (column_error col) as [e|] eqn:Herr.
    + unfold bind at 1. cbn [for_]. unfold bind at 1.
      unfold loop_body, bind, df_getitem, getitem, lift.
      by rewrite Hcol, comprehension_converted, Herr.
    + destruct (Nat.eqb_spec (length col) (nrows (obj s))) as [Hlen|Hlen].
      * unfold bind at 1. by rewrite (loop_numeric _ _ col).
      * unfold bind at 1. cbn [for_]. unfold bind at 1.
        unfold loop_body, bind, df_getitem, getitem, lift, df_setitem, setitem.
        rewrite Hcol, comprehension_converted, Herr, length_map.
        by destruct (Nat.eqb_spec (length col) (nrows (obj s))).
  - unfold bind at 1. cbn [for_]. unfold bind at 1.
    unfold loop_body, bind, df_getitem, getitem.
    by rewrite Hcol.
Qed.

(** ** The columns after the loop *)

Lemma convert_columns_position (col : list scalar) (rates : list (string * float))
    (cols : list (string * list scalar)) (i : nat) (k : string) (c : list scalar) :
  cols !! i = Some (k, c) ->
  (forall C, C ∈ rates.*1 -> k <> mc_label C) ->
  convert_columns col rates cols !! i = Some (k, c).
Proof.
  revert cols. induction rates as [|[C0 r0] rates IH]; intros cols Hi Hk; [done|].
  rewrite convert_columns_cons. apply IH.
  - rewrite (assign_column_lookup _ _ _ _ _ _ Hi). cbn.
    assert (String.eqb (mc_label C0) k = false) as ->; [|done].
    apply String.eqb_neq. intros <-. eapply (Hk C0); [|done]. cbn. left.
  - intros C HC. apply Hk. cbn. by right.
Qed.

Lemma convert_columns_overwrite (col : list scalar) (rates : list (string * float))
    (cols : list (string * list scalar)) (i : nat) (C : string) (r : float)
    (c : list scalar) :
  NoDup rates.*1 ->
  (C, r) ∈ rates ->
  cols !! i = Some (mc_label C, c) ->
  convert_columns col rates cols !! i =
  Some (mc_label C, map (rounded_product r) col).
Proof.
  revert cols c. induction rates as [|[C0 r0] rates IH]; intros cols c Hnd Hin Hi.
  - by apply elem_of_nil in Hin.
  - rewrite convert_columns_cons. cbn in Hnd. apply NoDup_cons in Hnd as [Hfresh Hnd].
    pose proof (assign_column_lookup (mc_label C0) (map (rounded_product r0) col)
                  _ _ _ _ Hi) as Hi'.
    apply elem_of_cons in Hin as [[= -> ->]|Hin].
    + rewrite String.eqb_refl in Hi'.
      apply convert_columns_position; [done|].
      intros C HC Heq. apply mc_label_inj in Heq as ->. done.
    + assert (C0 <> C) as Hne.
      { intros ->. apply Hfresh. apply list_elem_of_fmap. by exists (C, r). }
      assert (String.eqb (mc_label C0) (mc_label C) = false) as Heqb.
      { apply String.eqb_neq. intros Heq. by apply mc_label_inj in Heq. }
      rewrite Heqb in Hi'. by eapply IH.
Qed.

Lemma filter_ext_elem {A : Type} (P Q : A -> Prop)
    `{!forall x, Decision (P x)} `{!forall x, Decision (Q x)} (l : list A) :
  (forall x, x ∈ l -> P x <-> Q x) -> filter P l = filter Q l.
Proof.
  induction l as [|x l IH]; intros Hext; [done|].
  assert (filter P l = filter Q l) as Hl.
  { apply IH. intros y Hy. apply Hext. by right. }
  destruct (decide (P x)) as [HP|HP].
  - rewrite !filter_cons_True; [by rewrite Hl| |done]. apply Hext; [left|done].
  - rewrite !filter_cons_False; [done| |done].
    intros HQ. apply HP, Hext; [left|done].
Qed.

Lemma convert_columns_labels (col : list scalar) (rates : list (string * float))
    (cols : list (string * list scalar)) :
  NoDup rates.*1 ->
  (convert_columns col rates cols).*1 =
  cols.*1 ++ filter (fun l => l ∉ cols.*1) (mc_label <$> rates.*1).
Proof.
  revert cols. induction rates as [|[C0 r0] rates IH]; intros cols Hnd.
  - cbn. by rewrite app_nil_r.
  - rewrite convert_columns_cons. cbn in Hnd. apply NoDup_cons in Hnd as [Hfresh Hnd].
    rewrite IH by done. rewrite labels_assign. cbn [fst fmap list_fmap].
    destruct (has_label (mc_label C0) cols) eqn:E.
    + apply has_label_elem in E. rewrite filter_cons_False by (intros H; by apply H).
      done.
    + apply has_label_false in E. rewrite filter_cons_True by done.
      rewrite <- app_assoc. cbn. do 2 f_equal.
      apply filter_ext_elem. intros l Hl. rewrite not_elem_of_app.
      split; [by intros [? _]|]. intros Hnot. split; [done|].
      rewrite list_elem_of_singleton. intros ->.
      apply list_elem_of_fmap in Hl as (C & Heq & HC).
      apply mc_label_inj in Heq as <-. done.
Qed.

Lemma lookup_convert_columns (col : list scalar) (rates : list (string * float))
    (cols : list (string * list scalar)) (C : string) (r : float) :
  NoDup rates.*1 ->
  (C, r) ∈ rates ->
  lookup_column (mc_label C) (convert_columns col rates cols) =
  Some (map (rounded_product r) col).
Proof.
  revert cols. induction rates as [|[C0 r0] rates IH]; intros cols Hnd Hin.
  - by apply elem_of_nil in Hin.
  - rewrite convert_columns_cons. cbn in Hnd. apply NoDup_cons in Hnd as [Hfresh Hnd].
    apply elem_of_cons in Hin as [[= -> ->]|Hin]; [|by apply IH].
    cbn [fst snd]. clear IH.
    generalize (assign_column (mc_label C0) (map (rounded_product r0) col) cols)
      (lookup_assign_eq (mc_label C0) (map (rounded_product r0) col) cols).
    induction rates as [|[C1 r1] rates IH]; intros cs Hcs; [done|].
    rewrite convert_columns_cons. cbn in Hfresh, Hnd.
    apply not_elem_of_cons in Hfresh as [Hne Hfresh].
    apply NoDup_cons in Hnd as [_ Hnd].
    apply IH; [done|done|].
    rewrite lookup_assign_ne; [done|].
    intros Heq. by apply mc_label_inj in Heq.
Qed.

Lemma length_filter_fresh (rates : list (string * float)) (ls : list string)
    (C : string) :
  C ∈ rates.*1 -> mc_label C ∈ ls ->
  length (filter (fun l => l ∉ ls) (mc_label <$> rates.*1)) < length rates.
Proof.
  intros HC Hl.
  rewrite <- (length_fmap fst rates), <- (length_fmap mc_label rates.*1).
  apply (length_filter_lt _ _ (mc_label C)).
  - apply list_elem_of_fmap. by exists C.
  - intros H. by apply H.
Qed.

(** ** Integers in the range of floats *)

Section FloatRange.
Local Open Scope Z_scope.










End FloatRange.

(** ** The rounding rule *)

Section HalfEven.
Local Open Scope Z_scope.

(** [half_even_div] gives a nearest integer to the quotient, *)
Lemma half_even_div_nearest (num den : Z) :
  0 < den -> 2 * Z.abs (num - den * half_even_div num den) <= den.
Proof.
  intros Hden. unfold half_even_div.
  pose proof (Z_div_mod num den ltac:(lia)) as Hdiv.
  destruct (Z.div_eucl num den) as [q r]. destruct Hdiv as [-> Hr].
  destruct (Z.compare_spec (2 * r) den); [destruct (Z.even q)| |]; lia.
Qed.

(** and on a tie the even one. *)
Lemma half_even_div_tie (num den : Z) :
  0 < den -> 2 * Z.abs (num - den * half_even_div num den) = den ->
  Z.even (half_even_div num den) = true.
Proof.
  intros Hden. unfold half_even_div.
  pose proof (Z_div_mod num den ltac:(lia)) as Hdiv.
  destruct (Z.div_eucl num den) as [q r]. destruct Hdiv as [-> Hr].
  destruct (Z.compare_spec (2 * r) den) as [Heq|Hlt|Hgt].
  - destruct (Z.even q) eqn:Hq; [done|]. intros _.
    rewrite Z.even_add, Hq. done.
  - intros Htie. lia.
  - intros Htie. lia.
Qed.

End HalfEven.


(** ** The transform: results *)

Lemma getitem_Ok (df : DataFrame) (key : string) (col : list scalar) :
  getitem df key = Ok col <-> lookup_column key (columns df) = Some col.
Proof.
  unfold getitem. destruct (lookup_column key (columns df)); cbn.
  - split; by intros [= ->].
  - split; [by intros [=]|done].
Qed.

Lemma wf_column_length (df : DataFrame) (key : string) (col : list scalar) :
  wf df -> lookup_column key (columns df) = Some col -> length col = nrows df.
Proof.
  intros [_ Hlen] Hcol. apply lookup_column_Some_elem in Hcol.
  rewrite Forall_forall in Hlen. by apply (Hlen (key, col)).
Qed.

(** On a frame whose source column is numeric the transform goes through,
    and leaves the store described by [convert_columns]. *)
Lemma transform_market_cap_numeric (rates : list (string * float)) (s : store)
    (col : list scalar) :
  wf (obj s) ->
  getitem (obj s) source_column = Ok col ->
  Forall (fun x => numeric x = true) col ->
  transform_market_cap rates s =
  (Ok tt, mk_store (mk_df (nrows (obj s)) (convert_columns col rates (columns (obj s))))
                   (trace s ++ [transform_log])).
Proof.
  intros Hwf Hcol Hnum. apply getitem_Ok in Hcol.
  rewrite transform_market_cap_run, Hcol.
  apply column_error_numeric in Hnum. rewrite Hnum.
  rewrite (wf_column_length _ _ _ Hwf Hcol), Nat.eqb_refl.
  destruct rates; [|done]. by destruct s as [[n cols] t].
Qed.

Lemma converted_values (r : float) (col : list scalar) :
  Forall (fun x => numeric x = true) col ->
  forall i x, col !! i = Some x ->
    exists v, converted r x = Ok v /\ map (rounded_product r) col !! i = Some v.
Proof.
  intros Hnum i x Hi. exists (rounded_product r x). split.
  - apply converted_numeric, cell_error_numeric.
    rewrite Forall_forall in Hnum. apply Hnum. by eapply list_elem_of_lookup_2.
  - change (map (rounded_product r) col) with (rounded_product r <$> col).
    by rewrite list_lookup_fmap, Hi.
Qed.


(** C10: when the table already has a column labelled 'MC_<C>_Billion' for
    a currency code C of the rates map, transform_market_cap puts the
    converted values into that column where it stands, whatever it held, and
    adds no column for C: the table ends with fewer columns than it had plus
    the number of rates. *)
Theorem transform_market_cap_overwrites (rates : list (string * float)) (s : store)
    (col : list scalar) (C : string) (r : float) (i : nat) (old : list scalar) :
  wf (obj s) ->
  NoDup rates.*1 ->
  getitem (obj s) source_column = Ok col ->
  Forall (fun x => numeric x = true) col ->
  (C, r) ∈ rates ->
  columns (obj s) !! i = Some (mc_label C, old) ->
  exists s' values,
    transform_market_cap rates s = (Ok tt, s') /\
    columns (obj s') !! i = Some (mc_label C, values) /\
    (forall j x, col !! j = Some x ->
       exists v, converted r x = Ok v /\ values !! j = Some v) /\
    length (columns (obj s')) < length (columns (obj s)) + length rates.
Proof.
  intros Hwf Hnd Hcol Hnum Hin Hi.
  eexists. exists (map (rounded_product r) col).
  split; [by eapply transform_market_cap_numeric|]. cbn [obj columns].
  split; [by eapply convert_columns_overwrite|].
  split; [by apply converted_values|].
  rewrite <- (length_fmap fst (convert_columns _ _ _)).
  rewrite convert_columns_labels, length_app, length_fmap by done.
  apply Nat.add_lt_mono_l. apply (length_filter_fresh _ _ C).
  - apply list_elem_of_fmap. by exists (C, r).
  - apply list_elem_of_fmap. exists (mc_label C, old). split; [done|].
    by eapply list_elem_of_lookup_2.
Qed.



(** ** The transform keeps frames well formed *)

Lemma assign_column_lengths (n : nat) (key : string) (v : list scalar)
    (cols : list (string * list scalar)) :
  length v = n ->
  Forall (fun c => length c.2 = n) cols ->
  Forall (fun c => length c.2 = n) (assign_column key v cols).
Proof.
  intros Hv Hcols. unfold assign_column. destruct (has_label key cols).
  - induction Hcols as [|[k c] cols Hc Hcols IH]; cbn; constructor; [|done].
    by destruct (String.eqb key k).
  - apply Forall_app. split; [done|]. by repeat constructor.
Qed.

Lemma convert_columns_lengths (n : nat) (col : list scalar)
    (rates : list (string * float)) (cols : list (string * list scalar)) :
  length col = n ->
  Forall (fun c => length c.2 = n) cols ->
  Forall (fun c => length c.2 = n) (convert_columns col rates cols).
Proof.
  intros Hcol. revert cols. induction rates as [|item rates IH]; intros cols Hcols.
  - done.
  - rewrite convert_columns_cons. apply IH, assign_column_lengths; [|done].
    by rewrite length_map.
Qed.

Lemma convert_columns_NoDup (col : list scalar) (rates : list (string * float))
    (cols : list (string * list scalar)) :
  NoDup rates.*1 -> NoDup cols.*1 -> NoDup (convert_columns col rates cols).*1.
Proof.
  intros Hrates Hcols. rewrite convert_columns_labels by done.
  apply NoDup_app. split; [done|]. split.
  - intros l Hl Hin. by apply list_elem_of_filter in Hin as [Hnot _].
  - apply NoDup_filter, NoDup_fmap_2_strong; [|done].
    intros C1 C2 _ _ Heq. by apply mc_label_inj.
Qed.

(** A successful transform of a well-formed frame leaves a well-formed
    frame. *)
Lemma transform_market_cap_wf (rates : list (string * float)) (s s' : store) :
  wf (obj s) -> NoDup rates.*1 ->
  transform_market_cap rates s = (Ok tt, s') -> wf (obj s').
Proof.
  intros Hwf Hnd. rewrite transform_market_cap_run.
  destruct rates as [|item rates]; [by intros [= <-]|].
  destruct (lookup_column _ _) as [col|] eqn:Hcol; [|done].
  destruct (column_error col); [done|].
  destruct (Nat.eqb _ _); [|done]. intros [= <-]. destruct Hwf as [Hlab Hlen].
  split; unfold labels; cbn [obj columns nrows].
  - exact (convert_columns_NoDup col (item :: rates) _ Hnd Hlab).
  - apply (convert_columns_lengths _ col (item :: rates)); [|exact Hlen].
    by eapply wf_column_length.
Qed.

(** ** The transform on the sample tables *)

Lemma wf_bank_frame (rank : scalar) : wf (bank_frame rank).
Proof. solve_wf. Qed.

Lemma wf_rerun_frame : wf rerun_frame.
Proof. solve_wf. Qed.




Lemma NoDup_sample_rates : NoDup sample_rates.*1.
Proof. decide_by_computation. Qed.

(** The floats of some decimal literals, as bit patterns: 0.93 is
    0x1.dc28f5c28f5c3p-1 and 0.1 is 0x1.999999999999ap-4. *)
Example literal_values :
  literal 93 100 = S754_finite false 8376695306909123 (-53) /\
  literal 1 10 = S754_finite false 7205759403792794 (-56) /\
  float_of_Z 100 = S754_finite false 7036874417766400 (-46).
Proof. by vm_compute. Qed.

(** [7 * 0.93] is 6.510000000000001 and [round(7 * 0.93, 2)] is 6.51. *)
Example converted_inexact :
  float_mul (float_of_Z 7) (literal 93 100) =
    S754_finite false 7329608393545483 (-50) /\
  converted (literal 93 100) (SInt 7) = Ok (SFloat (literal 651 100)).
Proof. by vm_compute. Qed.

(** Ties go to the even digit of the binary value: 0.125 to 0.12, 0.375 to
    0.38; 2.675 is below the tie as a float and goes to 2.67. *)
Example float_round_ties :
  float_round (literal 125 1000) 2 = literal 12 100 /\
  float_round (literal 375 1000) 2 = literal 38 100 /\
  float_round (literal 2675 1000) 2 = literal 267 100.
Proof. by vm_compute. Qed.

Example float_round_sign :
  float_round (SFopp (literal 1 1000)) 2 = S754_zero true.
Proof. by vm_compute. Qed.

(** [round(100.0 * 0.93, 2)] is [93.0] and [round(100.0 * 0.8, 2)] is [80.0]. *)
Example converted_sample :
  converted (literal 93 100) (SFloat (float_of_Z 100)) = Ok (SFloat (float_of_Z 93)) /\
  converted (literal 8 10) (SFloat (float_of_Z 100)) = Ok (SFloat (float_of_Z 80)).
Proof. by vm_compute. Qed.



Lemma transform_market_cap_overwrites_witness :
  exists s' values,
    transform_market_cap [("EUR", literal 93 100)] (mk_store rerun_frame []) = (Ok tt, s') /\
    columns (obj s') !! 0 = Some (mc_label "EUR", values) /\
    (forall j x, [SFloat (float_of_Z 100); SFloat (float_of_Z 7)] !! j = Some x ->
       exists v, converted (literal 93 100) x = Ok v /\ values !! j = Some v) /\
    length (columns (obj s')) < length (columns rerun_frame) + 1.
Proof.
  apply (transform_market_cap_overwrites [("EUR", literal 93 100)]
           (mk_store rerun_frame []) [SFloat (float_of_Z 100); SFloat (float_of_Z 7)]
           "EUR" (literal 93 100) 0
           [SFloat (float_of_Z 92); SFloat (literal 644 100)]).
  - apply wf_rerun_frame.
  - decide_by_computation.
  - reflexivity.
  - repeat constructor.
  - left.
  - reflexivity.
Defined.



(** ** Fetching the page *)

Lemma failure_class_caught (f : request_failure) :
  is_RequestException (failure_class f) = true.
Proof. by destruct f. Qed.

(** [fetch_html] in closed form: the events grow by the one request, and the
    outcome is read off the answer of the transport. *)
Lemma fetch_html_run (W : collaborators) (u : string) (t : list event) :
  fetch_html W u t =
  (match transport W u with
   | Sent r => if ok r then Ok (text r) else Raise (fetch_error (status_detail r))
   | Failed f detail => Raise (fetch_error detail)
   end, t ++ [EvRequest u]).
Proof.
  unfold fetch_html, try_except, bind, requests_get, emit, add_event,
    traced_events, raise_for_status, ok, status_detail, fetch_error, throw, lift,
    raise, ret.
  destruct (transport W u) as [r|f detail]; cbn.
  - destruct (Z.leb_spec 400 (status_code r)), (Z.ltb_spec (status_code r) 500),
      (Z.leb_spec 500 (status_code r)), (Z.ltb_spec (status_code r) 600);
      cbn; try done; lia.
  - by rewrite failure_class_caught.
Qed.

Lemma fetch_html_result (W : collaborators) (u : string) (t : list event) :
  fetch_html W u t = (fetch_result W u, t ++ [EvRequest u]).
Proof. unfold fetch_result. by rewrite !fetch_html_run. Qed.


(** ** Finding the table *)




Lemma first_match_None (p : node -> bool) (els : list node) :
  first_match p els = None <-> Forall (fun n => p n = false) els.
Proof.
  induction els as [|n els IH]; cbn; [by split; [constructor|]|].
  rewrite Forall_cons. destruct (p n); [|rewrite IH]; split; try done.
  - by intros [? _].
  - by intros [_ ?].
Qed.


(** [extract_table] in closed form; it adds no event. *)
Lemma extract_table_run (W : collaborators) (html a : string) (t : list event) :
  extract_table W html a t =
  (match find (html_parser W html) "span" a with
   | None => Raise no_anchor_error
   | Some span => first_frame (read_html W (str W (find_next span "table")))
   end, t).
Proof.
  unfold extract_table. destruct (find _ _ _) as [span|]; [|done].
  unfold try_except, bind, lift, first_frame, throw, lift, raise, ret.
  destruct (read_html W _) as [[|df dfs]|e]; cbn; try done.
  by destruct (is_ValueError (exn_cls e)).
Qed.

Lemma extract_table_result (W : collaborators) (html a : string) (t : list event) :
  extract_table W html a t = (table_result W html a, t).
Proof. unfold table_result. by rewrite !extract_table_run. Qed.




(** ** The driver *)

Lemma main_stages (W : collaborators) :
  main W =
  (let* exchange_rates :=
     (emit (EvReadCsv rates_path) >> lift (read_rates W rates_path)) in
   logging_info "Preliminaries complete. Initiating ETL process." >>
   let* df := extract W url anchor in
   match df with
   | Some df => with_df df (transform_market_cap exchange_rates >> loading W)
   | None => ret tt
   end >>
   logging_info "Process completed.").
Proof. reflexivity. Qed.

(** [extract] never raises: it returns the frame, or logs the error and
    returns nothing. *)
Lemma extract_run (W : collaborators) (u a : string) (t : list event) :
  extract W u a t =
  match extraction_result W u a with
  | Ok df => (Ok (Some df), t ++ [EvRequest u; log_extracted])
  | Raise e => (Ok None, t ++ [EvRequest u; log_extraction_error e])
  end.
Proof.
  unfold extract, extraction_result, try_except, bind.
  rewrite fetch_html_result.
  destruct (fetch_result W u) as [html|e]; cbn.
  - rewrite extract_table_result.
    destruct (table_result W html a) as [df|e]; cbn;
      unfold add_event, traced_events; by rewrite <- app_assoc.
  - unfold add_event, traced_events. by rewrite <- app_assoc.
Qed.

(** The two writes and the queries in closed form. *)
Lemma loading_run (W : collaborators) (s : store) :
  loading W s =
  let df := obj s in
  match to_csv W df output_csv_path with
  | Raise e => raised e s [EvToCsv output_csv_path df]
  | Ok _ =>
    match connect W database_name with
    | Raise e =>
        raised e s [EvToCsv output_csv_path df; log_saved; EvConnect database_name]
    | Ok _ =>
      let opened := [EvToCsv output_csv_path df; log_saved;
                     EvConnect database_name; EvToSql table_name df] in
      match to_sql W df table_name with
      | Raise e => raised e s (opened ++ [EvRollback])
      | Ok _ =>
        match execute W query_all with
        | Raise e =>
            raised e s (opened ++ [log_loaded; EvExecute query_all; EvRollback])
        | Ok r1 =>
          match execute W query_avg with
          | Raise e =>
              raised e s (opened ++ [log_loaded] ++ query_events query_all r1 ++
                          [EvExecute query_avg; EvRollback])
          | Ok r2 =>
            match execute W query_names with
            | Raise e =>
                raised e s (opened ++ [log_loaded] ++ query_events query_all r1 ++
                            query_events query_avg r2 ++
                            [EvExecute query_names; EvRollback])
            | Ok r3 =>
                (Ok tt, mk_store df (trace s ++ loading_trace df r1 r2 r3))
            end
          end
        end
      end
    end
  end.
Proof.
  unfold loading. unfold_stage.
  destruct (to_csv W (obj s) output_csv_path) as [[]|e]; cbn;
    [|by rewrite <- ?app_assoc].
  destruct (connect W database_name) as [[]|e]; cbn; [|by rewrite <- ?app_assoc].
  destruct (to_sql W (obj s) table_name) as [[]|e]; cbn; [|by rewrite <- ?app_assoc].
  destruct (execute W query_all) as [r1|e]; cbn; [|by rewrite <- ?app_assoc].
  destruct (execute W query_avg) as [r2|e]; cbn; [|by rewrite <- ?app_assoc].
  destruct (execute W query_names) as [r3|e]; cbn; by rewrite <- ?app_assoc.
Qed.

(** [main] in closed form. *)
Lemma main_run (W : collaborators) :
  main W [] =
  match read_rates W rates_path with
  | Raise e => (Raise e, [EvReadCsv rates_path])
  | Ok rates =>
    match extraction_result W url anchor with
    | Raise e => (Ok tt, failed_extraction_trace e)
    | Ok df =>
      match transform_market_cap rates (mk_store df extracted_trace) with
      | (Raise e, s) => (Raise e, trace s)
      | (Ok _, s1) =>
        match loading W s1 with
        | (Raise e, s2) => (Raise e, trace s2)
        | (Ok _, s2) => (Ok tt, trace s2 ++ [log_completed])
        end
      end
    end
  end.
Proof.
  rewrite main_stages. unfold bind at 1. unfold bind at 1.
  unfold emit at 1, lift at 1, add_event, traced_events. cbn [app].
  destruct (read_rates W rates_path) as [rates|e]; [|done].
  unfold bind at 1. unfold logging_info at 1, emit at 1, add_event, traced_events.
  cbn [app]. unfold bind at 1. unfold bind at 1. rewrite extract_run.
  destruct (extraction_result W url anchor) as [df|e]; [|done].
  unfold with_df. cbn [app]. unfold bind at 1.
  change ([EvReadCsv rates_path; _; EvRequest url; log_extracted])
    with extracted_trace.
  destruct (transform_market_cap rates (mk_store df extracted_trace))
    as [[[]|e] s1]; [|done].
  by destruct (loading W s1) as [[[]|e] s2].
Qed.

(** ** The driver: results *)

(** When the transform raises, the store is as it was. *)
Lemma transform_market_cap_raise (rates : list (string * float)) (s s' : store)
    (e : exn) :
  transform_market_cap rates s = (Raise e, s') -> s' = s.
Proof.
  rewrite transform_market_cap_run. destruct rates; [done|].
  destruct (lookup_column _ _) as [col|]; [|by intros [= _ <-]].
  destruct (column_error col); [by intros [= _ <-]|].
  destruct (Nat.eqb _ _); [done|by intros [= _ <-]].
Qed.

Lemma loading_completes (W : collaborators) (s1 s2 : store) :
  loading W s1 = (Ok tt, s2) <->
  exists r1 r2 r3,
    to_csv W (obj s1) output_csv_path = Ok tt /\
    connect W database_name = Ok tt /\
    to_sql W (obj s1) table_name = Ok tt /\
    query_results W = Ok (r1, r2, r3) /\
    s2 = mk_store (obj s1) (trace s1 ++ loading_trace (obj s1) r1 r2 r3).
Proof.
  rewrite loading_run. unfold query_results, raised. cbn zeta.
  destruct (to_csv W (obj s1) output_csv_path) as [[]|e1];
    [|split; [done|by intros (? & ? & ? & [=] & _)]].
  destruct (connect W database_name) as [[]|e2];
    [|split; [done|by intros (? & ? & ? & _ & [=] & _)]].
  destruct (to_sql W (obj s1) table_name) as [[]|e3];
    [|split; [done|by intros (? & ? & ? & _ & _ & [=] & _)]].
  destruct (execute W query_all) as [r1|e4]; cbn;
    [|split; [done|by intros (? & ? & ? & _ & _ & _ & [=] & _)]].
  destruct (execute W query_avg) as [r2|e5]; cbn;
    [|split; [done|by intros (? & ? & ? & _ & _ & _ & [=] & _)]].
  destruct (execute W query_names) as [r3|e6]; cbn;
    [|split; [done|by intros (? & ? & ? & _ & _ & _ & [=] & _)]].
  split.
  - intros [= <-]. by exists r1, r2, r3.
  - by intros (? & ? & ? & _ & _ & _ & [= <- <- <-] & ->).
Qed.

Lemma loading_fails (W : collaborators) (s1 : store) (e : exn) :
  (exists s2, loading W s1 = (Raise e, s2)) <->
  to_csv W (obj s1) output_csv_path = Raise e \/
  to_csv W (obj s1) output_csv_path = Ok tt /\
  (connect W database_name = Raise e \/
   connect W database_name = Ok tt /\
   (to_sql W (obj s1) table_name = Raise e \/
    to_sql W (obj s1) table_name = Ok tt /\ query_results W = Raise e)).
Proof.
  rewrite loading_run. unfold query_results, raised. cbn zeta.
  destruct (to_csv W (obj s1) output_csv_path) as [[]|e1];
    [|split; [intros [s2 [= -> _]]; by left|intros [[= ->]|[[=] _]]; by eexists]].
  destruct (connect W database_name) as [[]|e2];
    [|split; [intros [s2 [= -> _]]; right; split; [done|by left]
             |intros [[=]|[_ [[= ->]|[[=] _]]]]; by eexists]].
  destruct (to_sql W (obj s1) table_name) as [[]|e3];
    [|split; [intros [s2 [= -> _]]; right; split; [done|]; right; split; [done|by left]
             |intros [[=]|[_ [[=]|[_ [[= ->]|[[=] _]]]]]]; by eexists]].
  destruct (execute W query_all) as [r1|e4]; cbn;
    [|split; [intros [s2 [= -> _]]; by repeat (right; split; [done|])
             |intros [[=]|[_ [[=]|[_ [[=]|[_ [= ->]]]]]]]; by eexists]].
  destruct (execute W query_avg) as [r2|e5]; cbn;
    [|split; [intros [s2 [= -> _]]; by repeat (right; split; [done|])
             |intros [[=]|[_ [[=]|[_ [[=]|[_ [= ->]]]]]]]; by eexists]].
  destruct (execute W query_names) as [r3|e6]; cbn;
    [|split; [intros [s2 [= -> _]]; by repeat (right; split; [done|])
             |intros [[=]|[_ [[=]|[_ [[=]|[_ [= ->]]]]]]]; by eexists]].
  split; [by intros [s2 [=]]|].
  by intros [[=]|[_ [[=]|[_ [[=]|[_ [=]]]]]]].
Qed.

(** What [main] does once the rates are read and the extraction is done. *)
Lemma main_after_extraction (W : collaborators) (rates : list (string * float))
    (df : DataFrame) :
  read_rates W rates_path = Ok rates ->
  extraction_result W url anchor = Ok df ->
  (forall s1 r1 r2 r3, completes W rates df s1 r1 r2 r3 ->
     main W [] =
     (Ok tt, trace s1 ++ loading_trace (obj s1) r1 r2 r3 ++ [log_completed])) /\
  (forall e, stage_fails W rates df e -> exists t, main W [] = (Raise e, t)) /\
  (forall t, main W [] = (Ok tt, t) -> exists s1 r1 r2 r3, completes W rates df s1 r1 r2 r3) /\
  (forall e t, main W [] = (Raise e, t) -> stage_fails W rates df e).
Proof.
  intros Hrates Hex. rewrite main_run, Hrates, Hex. unfold completes, stage_fails.
  destruct (transform_market_cap rates (mk_store df extracted_trace))
    as [[[]|e0] s1] eqn:Htr.
  - destruct (loading W s1) as [[[]|e1] s2] eqn:Hload.
    + apply loading_completes in Hload as (r1 & r2 & r3 & Hcsv & Hdb & Hsql & Hq & ->).
      split; [|split; [|split]].
      * intros s r1' r2' r3' ([= <-] & _ & _ & _ & Hq'). rewrite Hq in Hq'.
        injection Hq' as <- <- <-. cbn. by rewrite <- app_assoc.
      * intros e [[s [=]]|(s & [= <-] & Hfail)]. exfalso.
        rewrite Hcsv, Hdb, Hsql, Hq in Hfail.
        by destruct Hfail as [[=]|[_ [[=]|[_ [[=]|[_ [=]]]]]]].
      * intros t _. by exists s1, r1, r2, r3.
      * by intros e t [=].
    + assert (exists s2, loading W s1 = (Raise e1, s2)) as Hfail by by eexists.
      apply loading_fails in Hfail. split; [|split; [|split]].
      * intros s r1 r2 r3 ([= <-] & Hcsv & Hdb & Hsql & Hq). exfalso.
        rewrite Hcsv, Hdb, Hsql, Hq in Hfail.
        by destruct Hfail as [[=]|[_ [[=]|[_ [[=]|[_ [=]]]]]]].
      * intros e [[s [=]]|(s & [= <-] & Hfail')].
        assert (exists s2', loading W s1 = (Raise e, s2')) as [s2' Hl]
          by by apply loading_fails.
        rewrite Hload in Hl. injection Hl as -> _. by eexists.
      * by intros t [=].
      * intros e t [= <- _]. right. by exists s1.
  - split; [|split; [|split]].
    + by intros s r1 r2 r3 ([=] & _).
    + intros e [[s [= <- _]]|(s & [=] & _)]. by eexists.
    + by intros t [=].
    + intros e t [= <- _]. left. by eexists.
Qed.

Lemma transform_market_cap_trace (rates : list (string * float)) (s s' : store) :
  transform_market_cap rates s = (Ok tt, s') -> trace s' = trace s ++ [transform_log].
Proof.
  rewrite transform_market_cap_run. destruct rates; [by intros [= <-]|].
  destruct (lookup_column _ _) as [col|]; [|done].
  destruct (column_error col); [done|].
  destruct (Nat.eqb _ _); [|done]. by intros [= <-].
Qed.

(** The script logs no error on a run that an exception ends. *)
Lemma main_raise_no_error_log (W : collaborators) (e : exn) (t : list event) :
  main W [] = (Raise e, t) -> Forall (fun ev => is_error_log ev = false) t.
Proof.
  rewrite main_run.
  destruct (read_rates W rates_path) as [rates|e0];
    [|intros [= _ <-]; by repeat constructor].
  destruct (extraction_result W url anchor) as [df|e0]; [|done].
  destruct (transform_market_cap rates (mk_store df extracted_trace))
    as [[[]|e0] s1] eqn:Htr.
  - apply transform_market_cap_trace in Htr. cbn in Htr.
    rewrite loading_run. unfold raised. cbn zeta.
    destruct (to_csv W (obj s1) output_csv_path) as [[]|e1];
      [|intros [= _ <-]; cbn; rewrite Htr; by repeat constructor].
    destruct (connect W database_name) as [[]|e2];
      [|intros [= _ <-]; cbn; rewrite Htr; by repeat constructor].
    destruct (to_sql W (obj s1) table_name) as [[]|e3];
      [|intros [= _ <-]; cbn; rewrite Htr; by repeat constructor].
    destruct (execute W query_all) as [r1|e4];
      [|intros [= _ <-]; cbn; rewrite Htr; by repeat constructor].
    destruct (execute W query_avg) as [r2|e5];
      [|intros [= _ <-]; cbn; rewrite Htr; by repeat constructor].
    destruct (execute W query_names) as [r3|e6];
      [|intros [= _ <-]; cbn; rewrite Htr; by repeat constructor].
    done.
  - apply transform_market_cap_raise in Htr as ->. intros [= _ <-].
    by repeat constructor.
Qed.

(** C7: when the rates are read and the fetch or the extraction of the
    table fails, main logs the error and ends after the log record
    'Process completed.', having attempted no transform, write, connection
    or query; when the transform, the file write or the store write raises,
    the same exception leaves main, and the events end at the failing
    call. *)
Theorem main_short_circuit (W : collaborators) (rates : list (string * float)) :
  read_rates W rates_path = Ok rates ->
  (forall e, fetch_result W url = Raise e ->
     main W [] = (Ok tt, failed_extraction_trace e)) /\
  (forall html e, fetch_result W url = Ok html ->
     table_result W html anchor = Raise e ->
     main W [] = (Ok tt, failed_extraction_trace e)) /\
  (forall e, Forall (fun ev => is_load_event ev = false) (failed_extraction_trace e)) /\
  (forall df e s, extraction_result W url anchor = Ok df ->
     transform_market_cap rates (mk_store df extracted_trace) = (Raise e, s) ->
     main W [] = (Raise e, extracted_trace)) /\
  (forall df s1 e, extraction_result W url anchor = Ok df ->
     transform_market_cap rates (mk_store df extracted_trace) = (Ok tt, s1) ->
     to_csv W (obj s1) output_csv_path = Raise e ->
     main W [] = (Raise e, trace s1 ++ [EvToCsv output_csv_path (obj s1)])) /\
  (forall df s1 e, extraction_result W url anchor = Ok df ->
     transform_market_cap rates (mk_store df extracted_trace) = (Ok tt, s1) ->
     to_csv W (obj s1) output_csv_path = Ok tt ->
     connect W database_name = Ok tt ->
     to_sql W (obj s1) table_name = Raise e ->
     main W [] =
     (Raise e, trace s1 ++ [EvToCsv output_csv_path (obj s1); log_saved;
                            EvConnect database_name; EvToSql table_name (obj s1);
                            EvRollback])).
Proof.
  intros Hrates. rewrite main_run, Hrates. unfold extraction_result.
  split; [|split; [|split; [|split; [|split]]]].
  - by intros e ->.
  - intros html e -> Htable. cbn. by rewrite Htable.
  - intros e. by repeat constructor.
  - intros df e s -> Htr. rewrite Htr.
    by apply transform_market_cap_raise in Htr as ->.
  - intros df s1 e -> -> Hcsv. rewrite loading_run. cbn zeta. by rewrite Hcsv.
  - intros df s1 e -> -> Hcsv Hdb Hsql. rewrite loading_run. cbn zeta.
    by rewrite Hcsv, Hdb, Hsql.
Qed.

(** The status of a run, read off the outcomes of the collaborators. *)
Lemma exit_status_outcomes (W : collaborators) :
  (exit_status W = 0%Z \/ exit_status W = 1%Z) /\
  (exit_status W = 0%Z <->
   exists rates, read_rates W rates_path = Ok rates /\
     ((exists e, extraction_result W url anchor = Raise e /\
                 main W [] = (Ok tt, failed_extraction_trace e)) \/
      (exists df s1 r1 r2 r3,
         extraction_result W url anchor = Ok df /\
         completes W rates df s1 r1 r2 r3 /\
         main W [] =
         (Ok tt, trace s1 ++ loading_trace (obj s1) r1 r2 r3 ++ [log_completed])))) /\
  (exit_status W = 1%Z <->
   (exists e, read_rates W rates_path = Raise e) \/
   (exists rates df e, read_rates W rates_path = Ok rates /\
      extraction_result W url anchor = Ok df /\ stage_fails W rates df e)).
Proof.
  unfold exit_status.
  destruct (read_rates W rates_path) as [rates|e] eqn:Hrates.
  - destruct (extraction_result W url anchor) as [df|e] eqn:Hex.
    + destruct (main_after_extraction W rates df Hrates Hex)
        as (Hdone & Hfail & Hok & Hraise).
      destruct (main W []) as [[[]|e] t] eqn:Hmain.
      * destruct (Hok t eq_refl) as (s1 & r1 & r2 & r3 & Hc).
        split; [by left|]. split.
        -- split; [|done]. intros _. exists rates. split; [done|]. right.
           exists df, s1, r1, r2, r3.
           split; [done|]. split; [exact Hc|]. exact (Hdone _ _ _ _ Hc).
        -- split; [done|].
           intros [[e [=]]|(rates' & df' & e & [= <-] & [= <-] & Hf)].
           by destruct (Hfail e Hf) as [t' [=]].
      * split; [by right|]. split.
        -- split; [done|].
           intros (rates' & [= <-] & [(e' & [=] & _)|Hc]).
           destruct Hc as (df' & s1 & r1 & r2 & r3 & [= <-] & Hc & _).
           by pose proof (Hdone _ _ _ _ Hc) as [=].
        -- split; [|done]. intros _. right. exists rates, df, e.
           split; [done|]. split; [done|]. by eapply Hraise.
    + rewrite main_run, Hrates, Hex. split; [by left|]. split.
      * split; [|done]. intros _. exists rates. split; [done|]. left. by exists e.
      * split; [done|]. by intros [[e' [=]]|(rates' & df' & e' & _ & [=] & _)].
  - rewrite main_run, Hrates. split; [by right|]. split.
    + split; [done|]. by intros (rates & [=] & _).
    + split; [|done]. intros _. left. by exists e.
Qed.

(** C6 (amended): main ends with status 0 or 1.  It ends with status 0
    exactly when the rates are read and either the fetch or the extraction
    fails, which main logs as an error before it logs 'Process completed.',
    or every stage completes and the three queries run; it ends with status
    1 exactly when reading the rates fails or, after a successful
    extraction, the transform, a write, the connection or a query raises;
    on such a run the exception leaves main and the script has logged no
    error. *)
Theorem exit_status_cases (W : collaborators) :
  (exit_status W = 0%Z \/ exit_status W = 1%Z) /\
  (exit_status W = 0%Z <->
   exists rates, read_rates W rates_path = Ok rates /\
     ((exists e, extraction_result W url anchor = Raise e /\
                 main W [] = (Ok tt, failed_extraction_trace e)) \/
      (exists df s1 r1 r2 r3,
         extraction_result W url anchor = Ok df /\
         completes W rates df s1 r1 r2 r3 /\
         main W [] =
         (Ok tt, trace s1 ++ loading_trace (obj s1) r1 r2 r3 ++ [log_completed])))) /\
  (exit_status W = 1%Z <->
   (exists e, read_rates W rates_path = Raise e) \/
   (exists rates df e, read_rates W rates_path = Ok rates /\
      extraction_result W url anchor = Ok df /\ stage_fails W rates df e)) /\
  (exit_status W = 1%Z ->
   exists e t, main W [] = (Raise e, t) /\
               Forall (fun ev => is_error_log ev = false) t).
Proof.
  destruct (exit_status_outcomes W) as (H01 & H0 & H1).
  split; [exact H01|]. split; [exact H0|]. split; [exact H1|].
  unfold exit_status. destruct (main W []) as [[[]|e] t] eqn:Hmain; [done|].
  intros _. exists e, t. split; [done|]. by eapply main_raise_no_error_log.
Qed.

(** ** The script on the sample pages *)

Example fetch_html_not_found :
  fetch_html not_found_world url [] =
  (Raise (fetch_error
     ("404 Client Error: Not Found for url: " +:+ url)), [EvRequest url]).
Proof. by vm_compute. Qed.




Lemma main_short_circuit_witness :
  main offline_world [] =
    (Ok tt, failed_extraction_trace (fetch_error "Max retries exceeded")) /\
  main heading_world [] = (Ok tt, failed_extraction_trace no_anchor_error) /\
  main wrong_table_world [] = (Raise (key_error source_column), extracted_trace) /\
  (exists s1,
     main read_only_world [] =
     (Raise (mk_exn OSError "Permission denied"),
      trace s1 ++ [EvToCsv output_csv_path (obj s1)])) /\
  (exists s1,
     main locked_world [] =
     (Raise (mk_exn DatabaseError "database is locked"),
      trace s1 ++ [EvToCsv output_csv_path (obj s1); log_saved;
                   EvConnect database_name; EvToSql table_name (obj s1);
                   EvRollback])).
Proof.
  split; [|split; [|split; [|split]]].
  - by apply (main_short_circuit offline_world sample_rates eq_refl).
  - by eapply (main_short_circuit heading_world sample_rates eq_refl).
  - by eapply (main_short_circuit wrong_table_world sample_rates eq_refl).
  - eexists.
    eapply (main_short_circuit read_only_world sample_rates eq_refl);
      [reflexivity|by vm_compute|reflexivity].
  - eexists.
    eapply (main_short_circuit locked_world sample_rates eq_refl);
      [reflexivity|by vm_compute|reflexivity..].
Defined.

(** C6 as stated fails: with the network down main logs the error and
    returns, and the status is 0 though no stage after the fetch has run. *)
Lemma exit_status_zero_when_offline :
  fetch_result offline_world url = Raise (fetch_error "Max retries exceeded") /\
  main offline_world [] =
    (Ok tt, failed_extraction_trace (fetch_error "Max retries exceeded")) /\
  exit_status offline_world = 0%Z.
Proof. by vm_compute. Qed.

Lemma exit_status_cases_witness :
  exists rates, read_rates sample_world rates_path = Ok rates /\
    ((exists e, extraction_result sample_world url anchor = Raise e /\
                main sample_world [] = (Ok tt, failed_extraction_trace e)) \/
     (exists df s1 r1 r2 r3,
        extraction_result sample_world url anchor = Ok df /\
        completes sample_world rates df s1 r1 r2 r3 /\
        main sample_world [] =
        (Ok tt, trace s1 ++ loading_trace (obj s1) r1 r2 r3 ++ [log_completed]))).
Proof.
  apply (exit_status_cases sample_world). by vm_compute.
Defined.



(** * Further properties *)

(** ** The transform, run again and run in parts *)

Lemma lookup_source_convert (col : list scalar) (rates : list (string * float))
    (cols : list (string * list scalar)) :
  lookup_column source_column (convert_columns col rates cols) =
  lookup_column source_column cols.
Proof.
  revert cols. induction rates as [|item rates IH]; intros cols; [done|].
  by rewrite convert_columns_cons, IH, lookup_source_assign.
Qed.

Lemma convert_columns_app (col : list scalar) (rates1 rates2 : list (string * float))
    (cols : list (string * list scalar)) :
  convert_columns col (rates1 ++ rates2) cols =
  convert_columns col rates2 (convert_columns col rates1 cols).
Proof. unfold convert_columns. by rewrite foldl_app. Qed.

(** Assigning to a column the cells it has changes nothing. *)
Lemma assign_column_same (key : string) (v : list scalar)
    (cols : list (string * list scalar)) :
  NoDup cols.*1 -> lookup_column key cols = Some v -> assign_column key v cols = cols.
Proof.
  intros Hnd Hlook. unfold assign_column.
  assert (has_label key cols = true) as ->.
  { apply has_label_elem. destruct (decide (key ∈ cols.*1)) as [|Hn]; [done|].
    apply lookup_column_None in Hn. congruence. }
  induction cols as [|[k c] cols IH]; [done|]. cbn in *.
  apply NoDup_cons in Hnd as [Hk Hnd].
  destruct (String.eqb_spec key k) as [->|Hne].
  - injection Hlook as ->. f_equal.
    clear IH. induction cols as [|[k' c'] cols IH]; [done|]. cbn in *.
    apply not_elem_of_cons in Hk as [Hne Hk]. apply NoDup_cons in Hnd as [_ Hnd].
    destruct (String.eqb_spec k k'); [done|]. f_equal. by apply IH.
  - f_equal. by apply IH.
Qed.

Lemma convert_columns_fixed (col : list scalar) (rates : list (string * float))
    (cols : list (string * list scalar)) :
  NoDup cols.*1 ->
  (forall C r, (C, r) ∈ rates ->
     lookup_column (mc_label C) cols = Some (map (rounded_product r) col)) ->
  convert_columns col rates cols = cols.
Proof.
  intros Hnd. induction rates as [|[C r] rates IH]; intros Hall; [done|].
  rewrite convert_columns_cons. cbn [fst snd].
  rewrite assign_column_same; [|done|apply Hall; left].
  apply IH. intros C' r' Hin. apply Hall. by right.
Qed.

Lemma numeric_column_error (col : list scalar) :
  Forall (fun x => numeric x = true) col -> column_error col = None.
Proof. apply column_error_numeric. Qed.

(** X1: a successful transform_market_cap of a well-formed table leaves a
    well-formed table with the same number of rows, the same source column,
    and the columns it had, in their order, in front of the new ones. *)
Theorem transform_market_cap_invariants (rates : list (string * float))
    (s s' : store) :
  wf (obj s) ->
  NoDup rates.*1 ->
  transform_market_cap rates s = (Ok tt, s') ->
  wf (obj s') /\
  nrows (obj s') = nrows (obj s) /\
  getitem (obj s') source_column = getitem (obj s) source_column /\
  labels (obj s) `prefix_of` labels (obj s').
Proof.
  intros Hwf Hnd Hrun. split; [by eapply transform_market_cap_wf|].
  revert Hrun. rewrite transform_market_cap_run.
  destruct rates as [|item rates].
  { intros [= <-]. cbn. repeat split. by exists []; rewrite app_nil_r. }
  destruct (lookup_column source_column (columns (obj s))) as [col|] eqn:Hcol;
    [|by intros [=]].
  destruct (column_error col); [by intros [=]|].
  destruct (Nat.eqb (length col) (nrows (obj s))); [|by intros [=]].
  intros [= <-]. cbn [obj nrows columns]. split; [done|]. split.
  - unfold getitem. cbn [columns].
    by rewrite lookup_source_convert, lookup_source_assign.
  - unfold labels. cbn [columns].
    rewrite <- convert_columns_cons, (convert_columns_labels col (item :: rates) _ Hnd).
    by eexists.
Qed.

Lemma transform_market_cap_invariants_witness :
  exists s',
    transform_market_cap sample_rates (mk_store (bank_frame (SInt 1)) []) = (Ok tt, s') /\
    wf (obj s') /\
    nrows (obj s') = 1 /\
    getitem (obj s') source_column = Ok [SFloat (float_of_Z 100)] /\
    labels (bank_frame (SInt 1)) `prefix_of` labels (obj s').
Proof.
  eexists. split; [by vm_compute|].
  apply (transform_market_cap_invariants sample_rates
           (mk_store (bank_frame (SInt 1)) [])).
  - apply wf_bank_frame.
  - apply NoDup_sample_rates.
  - by vm_compute.
Defined.

(** X2: run a second time with the same rates on a well-formed table with a
    numeric source column, transform_market_cap leaves the table exactly as
    the first run left it. *)
Theorem transform_market_cap_idempotent (rates : list (string * float))
    (s : store) (col : list scalar) :
  wf (obj s) ->
  NoDup rates.*1 ->
  getitem (obj s) source_column = Ok col ->
  Forall (fun x => numeric x = true) col ->
  exists s1 s2,
    transform_market_cap rates s = (Ok tt, s1) /\
    transform_market_cap rates s1 = (Ok tt, s2) /\
    obj s2 = obj s1.
Proof.
  intros Hwf Hnd Hcol Hnum.
  pose proof (transform_market_cap_numeric rates s col Hwf Hcol Hnum) as Hrun.
  eexists. eexists. split; [exact Hrun|].
  assert (wf (obj (mk_store (mk_df (nrows (obj s))
                     (convert_columns col rates (columns (obj s))))
                     (trace s ++ [transform_log])))) as Hwf1
    by (by eapply transform_market_cap_wf).
  split.
  - apply (transform_market_cap_numeric rates _ col); [done| |done].
    apply getitem_Ok. cbn [obj columns]. rewrite lookup_source_convert.
    by apply getitem_Ok.
  - cbn [obj nrows columns]. f_equal.
    apply convert_columns_fixed; [apply Hwf1|].
    intros C r Hin. by apply lookup_convert_columns.
Qed.

Lemma transform_market_cap_idempotent_witness :
  exists s1 s2,
    transform_market_cap sample_rates (mk_store (bank_frame (SInt 1)) []) = (Ok tt, s1) /\
    transform_market_cap sample_rates s1 = (Ok tt, s2) /\
    obj s2 = obj s1.
Proof.
  apply (transform_market_cap_idempotent sample_rates
           (mk_store (bank_frame (SInt 1)) []) [SFloat (float_of_Z 100)]).
  - apply wf_bank_frame.
  - apply NoDup_sample_rates.
  - reflexivity.
  - repeat constructor.
Defined.

(** X3: on a well-formed table with a numeric source column, running
    transform_market_cap with the first part of a rates map and then with
    the rest gives the same table as one run with the whole map. *)
Theorem transform_market_cap_in_parts (rates1 rates2 : list (string * float))
    (s : store) (col : list scalar) :
  wf (obj s) ->
  NoDup (rates1 ++ rates2).*1 ->
  getitem (obj s) source_column = Ok col ->
  Forall (fun x => numeric x = true) col ->
  exists s1 s2 s12,
    transform_market_cap rates1 s = (Ok tt, s1) /\
    transform_market_cap rates2 s1 = (Ok tt, s2) /\
    transform_market_cap (rates1 ++ rates2) s = (Ok tt, s12) /\
    obj s12 = obj s2.
Proof.
  intros Hwf Hnd Hcol Hnum.
  rewrite fmap_app in Hnd. apply NoDup_app in Hnd as (Hnd1 & _ & Hnd2).
  pose proof (transform_market_cap_numeric rates1 s col Hwf Hcol Hnum) as Hrun1.
  pose proof (transform_market_cap_numeric (rates1 ++ rates2) s col Hwf Hcol Hnum)
    as Hrun12.
  eexists. eexists. eexists. split; [exact Hrun1|].
  split; [|split; [exact Hrun12|]].
  - apply (transform_market_cap_numeric rates2 _ col); [| |done].
    + exact (transform_market_cap_wf rates1 s _ Hwf Hnd1 Hrun1).
    + apply getitem_Ok. cbn [obj columns]. rewrite lookup_source_convert.
      by apply getitem_Ok.
  - cbn [obj nrows columns]. by rewrite convert_columns_app.
Qed.

Lemma transform_market_cap_in_parts_witness :
  exists s1 s2 s12,
    transform_market_cap [("EUR", literal 93 100)]
      (mk_store (bank_frame (SInt 1)) []) = (Ok tt, s1) /\
    transform_market_cap [("GBP", literal 8 10)] s1 = (Ok tt, s2) /\
    transform_market_cap sample_rates (mk_store (bank_frame (SInt 1)) []) =
      (Ok tt, s12) /\
    obj s12 = obj s2.
Proof.
  apply (transform_market_cap_in_parts [("EUR", literal 93 100)]
           [("GBP", literal 8 10)] (mk_store (bank_frame (SInt 1)) [])
           [SFloat (float_of_Z 100)]).
  - apply wf_bank_frame.
  - apply NoDup_sample_rates.
  - reflexivity.
  - repeat constructor.
Defined.




(** ** The transform and the types of the cells *)





Lemma converted_nan (r : float) :
  converted r (SFloat S754_nan) = Ok (SFloat S754_nan).
Proof. reflexivity. Qed.

(** X6: a missing value stays missing: where the source column of a
    well-formed numeric table holds NaN in a row, every converted column
    holds NaN in that row, and the transform does not raise. *)
Theorem transform_market_cap_missing_value (rates : list (string * float))
    (s : store) (col : list scalar) (C : string) (r : float) (i : nat) :
  wf (obj s) ->
  NoDup rates.*1 ->
  getitem (obj s) source_column = Ok col ->
  Forall (fun x => numeric x = true) col ->
  (C, r) ∈ rates ->
  col !! i = Some (SFloat S754_nan) ->
  exists s' values,
    transform_market_cap rates s = (Ok tt, s') /\
    getitem (obj s') (mc_label C) = Ok values /\
    values !! i = Some (SFloat S754_nan).
Proof.
  intros Hwf Hnd Hcol Hnum Hin Hi.
  eexists. exists (map (rounded_product r) col).
  split; [by eapply transform_market_cap_numeric|]. split.
  - apply getitem_Ok. cbn [obj columns]. by apply lookup_convert_columns.
  - change (map (rounded_product r) col) with (rounded_product r <$> col).
    rewrite list_lookup_fmap, Hi. cbn [fmap option_fmap option_map].
    unfold rounded_product. by rewrite converted_nan.
Qed.

Lemma transform_market_cap_missing_value_witness :
  exists s' values,
    transform_market_cap sample_rates (mk_store gap_frame []) = (Ok tt, s') /\
    getitem (obj s') (mc_label "GBP") = Ok values /\
    values !! 1 = Some (SFloat S754_nan).
Proof.
  apply (transform_market_cap_missing_value sample_rates (mk_store gap_frame [])
           [SFloat (float_of_Z 100); SFloat S754_nan] "GBP" (literal 8 10) 1).
  - solve_wf.
  - apply NoDup_sample_rates.
  - reflexivity.
  - repeat constructor.
  - right. left.
  - reflexivity.
Defined.

(** ** The extraction *)

(** X7: extract never raises.  It makes one request and adds one log
    record: it returns the table and logs at level INFO when fetch_html and
    extract_table both return, and it returns None and logs the text of the
    exception at level ERROR when either of them raises. *)
Theorem extract_never_raises (W : collaborators) (u a : string) (t : list event) :
  exists r ev,
    extract W u a t = (Ok r, t ++ [EvRequest u; ev]) /\
    match fetch_result W u with
    | Raise e => r = None /\ ev = log_extraction_error e
    | Ok html =>
        match table_result W html a with
        | Raise e => r = None /\ ev = log_extraction_error e
        | Ok df => r = Some df /\ ev = log_extracted
        end
    end.
Proof.
  rewrite extract_run. unfold extraction_result.
  destruct (fetch_result W u) as [html|e]; cbn; [|by eexists; eexists].
  destruct (table_result W html a) as [df|e]; by eexists; eexists.
Qed.

(** X8: when a span with the anchor is found and no table follows it,
    extract_table hands the text 'None' to the tabular parser, and its
    outcome is what the parser makes of that text. *)
Theorem extract_table_without_table (W : collaborators) (html a : string)
    (t : list event) (span : element) :
  find (html_parser W html) "span" a = Some span ->
  find_next span "table" = None ->
  extract_table W html a t = (first_frame (read_html W "None"), t).
Proof. intros Hspan Hnone. by rewrite extract_table_run, Hspan, Hnone. Qed.

Lemma extract_table_without_table_witness :
  extract_table heading_only_world "<html>...</html>" anchor [] =
  (Raise (table_error "No tables found"), []).
Proof.
  eapply (extract_table_without_table heading_only_world "<html>...</html>"
            anchor []); reflexivity.
Defined.

(** X9: extract_table wraps only a ValueError of the tabular parser: any
    other exception the parser raises leaves extract_table as it is, with
    no 'Error extracting table' in front. *)
Theorem extract_table_passes_other_errors (W : collaborators) (html a : string)
    (t : list event) (span : element) (e : exn) :
  find (html_parser W html) "span" a = Some span ->
  read_html W (str W (find_next span "table")) = Raise e ->
  is_ValueError (exn_cls e) = false ->
  extract_table W html a t = (Raise e, t).
Proof.
  intros Hspan Hread Hcls. rewrite extract_table_run, Hspan, Hread. cbn.
  by rewrite Hcls.
Qed.

Lemma extract_table_passes_other_errors_witness :
  extract_table no_parser_world "<html>...</html>" anchor [] =
  (Raise (mk_exn OSError "lxml not found"), []).
Proof.
  eapply (extract_table_passes_other_errors no_parser_world "<html>...</html>"
            anchor []); reflexivity.
Defined.

(** ** The runs of the driver *)

(** Every run of [main], by the outcomes of the collaborators, with its
    events written out. *)
Lemma main_shapes (W : collaborators) (res : result unit) (t : list event) :
  main W [] = (res, t) ->
  match read_rates W rates_path with
  | Raise e => res = Raise e /\ t = [EvReadCsv rates_path]
  | Ok rates =>
    match extraction_result W url anchor with
    | Raise e => res = Ok tt /\ t = failed_extraction_trace e
    | Ok df0 =>
      exists r1 s1,
        transform_market_cap rates (mk_store df0 extracted_trace) = (r1, s1) /\
        match r1 with
        | Raise e => res = Raise e /\ t = extracted_trace
        | Ok _ =>
          let df := obj s1 in
          let base := extracted_trace ++ [transform_log; EvToCsv output_csv_path df] in
          match to_csv W df output_csv_path with
          | Raise e => res = Raise e /\ t = base
          | Ok _ =>
            match connect W database_name with
            | Raise e => res = Raise e /\
                         t = base ++ [log_saved; EvConnect database_name]
            | Ok _ =>
              let opened := base ++ [log_saved; EvConnect database_name;
                                     EvToSql table_name df] in
              match to_sql W df table_name with
              | Raise e => res = Raise e /\ t = opened ++ [EvRollback]
              | Ok _ =>
                match execute W query_all with
                | Raise e =>
                    res = Raise e /\
                    t = opened ++ [log_loaded; EvExecute query_all; EvRollback]
                | Ok r1 =>
                  match execute W query_avg with
                  | Raise e =>
                      res = Raise e /\
                      t = opened ++ [log_loaded] ++ query_events query_all r1 ++
                          [EvExecute query_avg; EvRollback]
                  | Ok r2 =>
                    match execute W query_names with
                    | Raise e =>
                        res = Raise e /\
                        t = opened ++ [log_loaded] ++ query_events query_all r1 ++
                            query_events query_avg r2 ++
                            [EvExecute query_names; EvRollback]
                    | Ok r3 =>
                        res = Ok tt /\
                        t = opened ++ [log_loaded] ++ query_events query_all r1 ++
                            query_events query_avg r2 ++
                            query_events query_names r3 ++
                            [EvCommit; log_completed]
                    end
                  end
                end
              end
            end
          end
        end
  end
  end.
Proof.
  rewrite main_run.
  destruct (read_rates W rates_path) as [rates|e0]; [|by intros [= <- <-]].
  destruct (extraction_result W url anchor) as [df0|e0]; [|by intros [= <- <-]].
  destruct (transform_market_cap rates (mk_store df0 extracted_trace))
    as [[[]|e0] s1] eqn:Htr.
  - intros Hmain. exists (Ok tt), s1. split; [done|].
    apply transform_market_cap_trace in Htr. cbn [trace] in Htr.
    revert Hmain. rewrite loading_run. unfold raised. cbn zeta.
    destruct (to_csv W (obj s1) output_csv_path) as [[]|e1];
      [|intros [= <- <-]; cbn [trace]; rewrite Htr; by rewrite <- !app_assoc].
    destruct (connect W database_name) as [[]|e2];
      [|intros [= <- <-]; cbn [trace]; rewrite Htr; by rewrite <- !app_assoc].
    destruct (to_sql W (obj s1) table_name) as [[]|e3];
      [|intros [= <- <-]; cbn [trace]; rewrite Htr; by rewrite <- !app_assoc].
    destruct (execute W query_all) as [r1|e4];
      [|intros [= <- <-]; cbn [trace]; rewrite Htr; by rewrite <- !app_assoc].
    destruct (execute W query_avg) as [r2|e5];
      [|intros [= <- <-]; cbn [trace]; rewrite Htr; by rewrite <- !app_assoc].
    destruct (execute W query_names) as [r3|e6];
      [|intros [= <- <-]; cbn [trace]; rewrite Htr; by rewrite <- !app_assoc].
    intros [= <- <-]. cbn [trace]. rewrite Htr. unfold loading_trace.
    by rewrite <- !app_assoc.
  - intros [= <- <-]. exists (Raise e0), s1. split; [done|].
    by apply transform_market_cap_raise in Htr as ->.
Qed.

(** X15: extract returns a table exactly when the transport answers with a
    status that raise_for_status accepts, a span with the anchor is found
    in the parsed text of the response, and the tabular parser returns at
    least one table for what find_next gave; the table returned is the
    first of them. *)
Theorem extract_returns_table_iff (W : collaborators) (u a : string)
    (t : list event) (df : DataFrame) :
  (extract W u a t).1 = Ok (Some df) <->
  exists r span dfs,
    transport W u = Sent r /\ ok r = true /\
    find (html_parser W (text r)) "span" a = Some span /\
    read_html W (str W (find_next span "table")) = Ok (df :: dfs).
Proof.
  rewrite extract_run. unfold extraction_result, fetch_result, table_result.
  rewrite fetch_html_run. cbn [fst].
  destruct (transport W u) as [r|f detail]; cbn;
    [|split; [done|by intros (? & ? & ? & [=] & _)]].
  destruct (ok r) eqn:Hok; cbn;
    [|split; [done|intros (? & ? & ? & [= <-] & ? & _); congruence]].
  rewrite extract_table_run. cbn [fst].
  destruct (find (html_parser W (text r)) "span" a) as [span|] eqn:Hfind; cbn.
  - destruct (read_html W (str W (find_next span "table"))) as [[|df' dfs]|e]
      eqn:Hread; cbn.
    + split; [done|]. intros (r' & span' & dfs' & [= <-] & _ & Hf & Hr).
      rewrite Hfind in Hf. injection Hf as <-. congruence.
    + split.
      * intros [= <-]. by exists r, span, dfs.
      * intros (r' & span' & dfs' & [= <-] & _ & Hf & Hr).
        rewrite Hfind in Hf. injection Hf as <-. congruence.
    + split.
      * by destruct (is_ValueError (exn_cls e)).
      * intros (r' & span' & dfs' & [= <-] & _ & Hf & Hr).
        rewrite Hfind in Hf. injection Hf as <-. congruence.
  - split; [done|]. intros (r' & span' & dfs' & [= <-] & _ & Hf & _). congruence.
Qed.

(** X10: in every run of main, the file is written at the fixed path and
    with the table the transform has left; the store is written only after
    the file write and the connection have succeeded, with the same table
    and under the fixed name; a query is executed only after the store
    write has succeeded; and what is printed is the result of a query that
    has been executed. *)
Theorem main_writes_in_order (W : collaborators) (res : result unit)
    (t : list event) :
  main W [] = (res, t) ->
  (forall p df, EvToCsv p df ∈ t ->
     p = output_csv_path /\
     exists rates df0 s1,
       read_rates W rates_path = Ok rates /\
       extraction_result W url anchor = Ok df0 /\
       transform_market_cap rates (mk_store df0 extracted_trace) = (Ok tt, s1) /\
       df = obj s1) /\
  (forall n df, EvToSql n df ∈ t ->
     n = table_name /\ EvToCsv output_csv_path df ∈ t /\
     to_csv W df output_csv_path = Ok tt /\ connect W database_name = Ok tt) /\
  (forall q, EvExecute q ∈ t ->
     exists df, EvToSql table_name df ∈ t /\ to_sql W df table_name = Ok tt) /\
  (forall rows, EvPrint rows ∈ t ->
     exists q, EvExecute q ∈ t /\ execute W q = Ok rows).
Proof.
  intros Hmain. run_cases Hmain main_shapes.
  all: split; [|split; [|split]].
  all: intros; match goal with H : _ ∈ _ |- _ => in_list H end.
  all: simplify_eq.
  all: try (split; [done|]).
  all: try (by exists rates, df0, s1).
  all: try (split; [is_in_list|done]).
  all: try (exists (obj s1); split; [is_in_list|done]).
  all: try (exists query_all; split; [is_in_list|done]).
  all: try (exists query_avg; split; [is_in_list|done]).
  all: try (exists query_names; split; [is_in_list|done]).
Qed.

Lemma main_writes_in_order_witness :
  exists res t,
    main sample_world [] = (res, t) /\
    (forall p df, EvToCsv p df ∈ t ->
       p = output_csv_path /\
       exists rates df0 s1,
         read_rates sample_world rates_path = Ok rates /\
         extraction_result sample_world url anchor = Ok df0 /\
         transform_market_cap rates (mk_store df0 extracted_trace) = (Ok tt, s1) /\
         df = obj s1) /\
    (forall n df, EvToSql n df ∈ t ->
       n = table_name /\ EvToCsv output_csv_path df ∈ t /\
       to_csv sample_world df output_csv_path = Ok tt /\
       connect sample_world database_name = Ok tt) /\
    (forall q, EvExecute q ∈ t ->
       exists df, EvToSql table_name df ∈ t /\
                  to_sql sample_world df table_name = Ok tt) /\
    (forall rows, EvPrint rows ∈ t ->
       exists q, EvExecute q ∈ t /\ execute sample_world q = Ok rows).
Proof.
  eexists. eexists. split; [by vm_compute|].
  eapply (main_writes_in_order sample_world). by vm_compute.
Defined.

(** X11: in every run of main the connection is committed exactly when main
    returns after having opened it, and rolled back exactly when an
    exception leaves main after the connection has been opened. *)
Theorem main_commit_or_rollback (W : collaborators) (res : result unit)
    (t : list event) :
  main W [] = (res, t) ->
  (EvCommit ∈ t <-> res = Ok tt /\ EvConnect database_name ∈ t) /\
  (EvRollback ∈ t <->
   (exists e, res = Raise e) /\ connect W database_name = Ok tt /\
   EvConnect database_name ∈ t).
Proof.
  intros Hmain. run_cases Hmain main_shapes.
  all: split; split.
  all: try (intros H; in_list H; fail).
  all: try (intros [[=] _]; fail).
  all: try (intros [[e [=]] _]; fail).
  all: try (intros (_ & [=] & _); fail).
  all: try (intros [_ H]; in_list H; fail).
  all: try (intros (_ & _ & H); in_list H; fail).
  all: try (intros _; is_in_list).
  all: try (intros _; split; [done|is_in_list]).
  all: try (intros _; split; [by eexists|]; split; [done|is_in_list]).
Qed.

Lemma main_commit_or_rollback_witness :
  exists res t,
    main bad_query_world [] = (res, t) /\
    (EvCommit ∈ t <-> res = Ok tt /\ EvConnect database_name ∈ t) /\
    (EvRollback ∈ t <->
     (exists e, res = Raise e) /\ connect bad_query_world database_name = Ok tt /\
     EvConnect database_name ∈ t).
Proof.
  eexists. eexists. split; [by vm_compute|].
  eapply (main_commit_or_rollback bad_query_world). by vm_compute.
Defined.

(** X12: when the file of the rates cannot be read, the exception leaves
    main at once: no request is made, nothing is logged or written, and the
    exit status is 1. *)
Theorem main_rates_failure (W : collaborators) (e : exn) :
  read_rates W rates_path = Raise e ->
  main W [] = (Raise e, [EvReadCsv rates_path]) /\ exit_status W = 1%Z.
Proof.
  intros Hrates. unfold exit_status. by rewrite main_run, Hrates.
Qed.

Lemma main_rates_failure_witness :
  main no_rates_world [] =
    (Raise (mk_exn OSError "No such file or directory: 'exchange_rate.csv'"),
     [EvReadCsv rates_path]) /\
  exit_status no_rates_world = 1%Z.
Proof. by apply (main_rates_failure no_rates_world). Defined.

(** X13: a run of main makes exactly one request, to the fixed URL, when
    the rates have been read, and none otherwise; no outcome of a later
    stage leads to a second request. *)
Theorem main_one_request (W : collaborators) (res : result unit) (t : list event) :
  main W [] = (res, t) ->
  requests_of t =
  match read_rates W rates_path with
  | Ok _ => [url]
  | Raise _ => []
  end.
Proof. intros Hmain. run_cases Hmain main_shapes; reflexivity. Qed.

Lemma main_one_request_witness :
  exists res t, main offline_world [] = (res, t) /\ requests_of t = [url].
Proof.
  eexists. eexists. split; [by vm_compute|].
  apply (main_one_request offline_world (Ok tt)). by vm_compute.
Defined.

(** X14: when the second query raises after the first has run, the rows of
    the first query have been printed, the third query is never executed,
    the connection is rolled back, 'Process completed.' is not logged and
    the exception of the query leaves main. *)
Theorem main_query_failure (W : collaborators) (rates : list (string * float))
    (df0 : DataFrame) (s1 : store) (rows : list (list scalar)) (e : exn) :
  read_rates W rates_path = Ok rates ->
  extraction_result W url anchor = Ok df0 ->
  transform_market_cap rates (mk_store df0 extracted_trace) = (Ok tt, s1) ->
  to_csv W (obj s1) output_csv_path = Ok tt ->
  connect W database_name = Ok tt ->
  to_sql W (obj s1) table_name = Ok tt ->
  execute W query_all = Ok rows ->
  execute W query_avg = Raise e ->
  exists t,
    main W [] = (Raise e, t) /\
    EvPrint rows ∈ t /\
    (EvExecute query_names ∉ t) /\
    EvRollback ∈ t /\
    (log_completed ∉ t).
Proof.
  intros Hrates Hex Htr Hcsv Hdb Hsql Hq1 Hq2.
  destruct (main W []) as [res t] eqn:Hmain. exists t.
  apply main_shapes in Hmain. rewrite Hrates, Hex in Hmain.
  destruct Hmain as (r1 & s1' & Htr' & Hmain). rewrite Htr in Htr'.
  injection Htr' as <- <-. cbn zeta in Hmain.
  rewrite Hcsv, Hdb, Hsql, Hq1, Hq2 in Hmain. destruct Hmain as [-> ->].
  unfold extracted_trace, query_events, log_start, log_extracted, log_saved,
    log_loaded, log_query, log_completed, transform_log. cbn [app].
  split; [done|]. split; [is_in_list|]. split; [|split; [is_in_list|]].
  - intros H. in_list H.
  - intros H. in_list H.
Qed.

Lemma main_query_failure_witness :
  exists t,
    main bad_query_world [] =
      (Raise (mk_exn DatabaseError "no such column: MC_GBP_Billion"), t) /\
    EvPrint [[SStr "ExampleBank"]] ∈ t /\
    (EvExecute query_names ∉ t) /\
    EvRollback ∈ t /\
    (log_completed ∉ t).
Proof.
  eapply (main_query_failure bad_query_world sample_rates);
    [reflexivity|reflexivity|by vm_compute|reflexivity..].
Defined.
